(** * BLF to CSV converter: a shallow embedding of [script.py]

    The script opens a BLF log, iterates over the messages delivered by
    python-can's [BLFReader], and writes one CSV row per message with
    [csv.DictWriter].  The embedding follows the script statement by
    statement:

    - Python values that reach the output ([int], [str], [None], [bool],
      [float], [bytearray]) and the format specifications the script
      applies to them ([:.6f], [:X], [:02X], [str]);
    - the row dictionary and the CSV writer (excel dialect);
    - a world made of a file system and the lines printed on stdout,
      threaded through a small exception/state monad;
    - [convert_blf_to_csv] with its [try]/[except] clauses, and [main]
      with the [pathlib] operations it uses.

    python-can is an external library: the reader is a parameter of the
    development, described only by the sequence of messages it yields and
    the exception, if any, that ends the iteration.

    Conventions of the model:
    - the exceptions are those the operations of the script raise, all of
      them instances of [Exception]; interrupts delivered from outside
      the program are not represented;
    - [print] and writes to a file already open succeed;
    - the messages a reader delivers are determined by the bytes the
      input had when it was opened;
    - path strings are POSIX paths, looked up as they are written (no
      links, no resolution of [..]). *)

From Stdlib Require Import ZArith NArith Ascii String Lia.
From Stdlib.Strings Require Import Byte.
From stdpp Require Import base gmap strings list.

Local Open Scope string_scope.
Local Open Scope N_scope.

(** ** Python values and format specifications *)

Module Py.

(** Values stored in a row dictionary. *)
Inductive value :=
| PyNone
| PyInt (z : Z)
| PyStr (s : string).

(** A finite binary floating-point number [(-1)^neg * mant * 2^exp].
    The timestamps of a log are computed from header integers by finite
    arithmetic, so only finite values are represented. *)
Record float := mkfloat { f_neg : bool; f_mant : N; f_exp : Z }.

(** Digit characters [0-9] and uppercase [A-F]. *)
Definition digit_char (d : N) : ascii :=
  if d <? 10 then ascii_of_N (48 + d) else ascii_of_N (55 + d).

(** Positional rendering of [n] in base [base], most significant digit
    first, in front of [acc]. *)
Fixpoint to_base (fuel : nat) (base n : N) (acc : string) : string :=
  match fuel with
  | O => acc
  | S fuel' =>
      let acc' := String (digit_char (n mod base)) acc in
      if n / base =? 0 then acc' else to_base fuel' base (n / base) acc'
  end.

Definition digits (base n : N) : string :=
  to_base (S (N.size_nat n)) base n EmptyString.

(** Exactly [w] digits of [n], zero padded on the left. *)
Fixpoint fixed_digits (w : nat) (base n : N) (acc : string) : string :=
  match w with
  | O => acc
  | S w' => fixed_digits w' base (n / base) (String (digit_char (n mod base)) acc)
  end.

Definition sign_prefix (z : Z) : string :=
  match z with Zneg _ => "-" | _ => EmptyString end.

(** [str(z)] and [format(z, 'd')]. *)
Definition str_int (z : Z) : string :=
  sign_prefix z +:+ digits 10 (Z.abs_N z).

(** [format(z, 'X')]. *)
Definition format_X (z : Z) : string :=
  sign_prefix z +:+ digits 16 (Z.abs_N z).

(** [format(b, '02X')] for an element of a [bytearray]. *)
Definition format_02X (b : byte) : string :=
  fixed_digits 2 16 (Byte.to_N b) EmptyString.

(** [str(b)] for a [bool]. *)
Definition str_bool (b : bool) : string :=
  if b then "True" else "False".

(** [|x| * 10^6] rounded to the nearest integer, ties to even: the
    correctly rounded conversion performed by [format(x, '.6f')]. *)
Definition scaled_round (x : float) : N :=
  match f_exp x with
  | Zneg p =>
      let den := 2 ^ (Npos p) in
      let num := f_mant x * 1000000 in
      let q := num / den in
      let r := num mod den in
      if (den <? 2 * r) || ((2 * r =? den) && N.odd q) then q + 1 else q
  | e => f_mant x * 2 ^ (Z.to_N e) * 1000000
  end.

(** [format(x, '.6f')]. *)
Definition format_6f (x : float) : string :=
  let q := scaled_round x in
  (if f_neg x then "-" else EmptyString)
    +:+ digits 10 (q / 1000000)
    +:+ "."
    +:+ fixed_digits 6 10 (q mod 1000000) EmptyString.

(** [sep.join(parts)]. *)
Fixpoint join (sep : string) (parts : list string) : string :=
  match parts with
  | [] => EmptyString
  | [p] => p
  | p :: rest => p +:+ sep +:+ join sep rest
  end.

(** [str * n]. *)
Fixpoint repeat_str (s : string) (n : nat) : string :=
  match n with
  | O => EmptyString
  | S n' => s +:+ repeat_str s n'
  end.

End Py.

(** ** The CSV writer ([csv.DictWriter], excel dialect) *)

Module Csv.

Definition quotechar : ascii := "034"%char.
Definition delimiter : ascii := ","%char.
Definition lineterminator : string :=
  String "013"%char (String "010"%char EmptyString).

(** Text of one field: [None] is written empty, strings as they are,
    anything else through [str]. *)
Definition field_text (v : Py.value) : string :=
  match v with
  | Py.PyNone => EmptyString
  | Py.PyInt z => Py.str_int z
  | Py.PyStr s => s
  end.

Definition special (c : ascii) : bool :=
  Ascii.eqb c delimiter || Ascii.eqb c quotechar
  || Ascii.eqb c "013"%char || Ascii.eqb c "010"%char.

Fixpoint needs_quote (s : string) : bool :=
  match s with
  | EmptyString => false
  | String c s' => special c || needs_quote s'
  end.

Fixpoint double_quotes (s : string) : string :=
  match s with
  | EmptyString => EmptyString
  | String c s' =>
      if Ascii.eqb c quotechar
      then String c (String c (double_quotes s'))
      else String c (double_quotes s')
  end.

(** QUOTE_MINIMAL with doublequote. *)
Definition quote_field (s : string) : string :=
  if needs_quote s
  then String quotechar (double_quotes s) +:+ String quotechar EmptyString
  else s.

Definition render_fields (fields : list string) : string :=
  Py.join "," (quote_field <$> fields) +:+ lineterminator.

(** [DictWriter.writerow]: the values are taken in the order of
    [fieldnames], a missing key giving the empty [restval]. *)
Definition dict_to_list (fieldnames : list string)
    (rowdict : gmap string Py.value) : list Py.value :=
  (λ key, default (Py.PyStr EmptyString) (rowdict !! key)) <$> fieldnames.

Definition render_row (fieldnames : list string)
    (rowdict : gmap string Py.value) : string :=
  render_fields (field_text <$> dict_to_list fieldnames rowdict).

(** [DictWriter.writeheader] writes the row [dict(zip(fieldnames, fieldnames))]. *)
Definition header_dict (fieldnames : list string) : gmap string Py.value :=
  list_to_map (zip fieldnames (Py.PyStr <$> fieldnames)).

Definition render_header (fieldnames : list string) : string :=
  render_row fieldnames (header_dict fieldnames).

End Csv.

(** ** Messages and the reader *)

(** The attributes of a [can.Message] the script reads.  [channel] is
    [None] when the object has no such attribute ([hasattr] is false),
    and [Some v] when it has one, whatever its value. *)
Record Message := mkMessage {
  timestamp : Py.float;
  channel : option Py.value;
  arbitration_id : Z;
  is_extended_id : bool;
  is_remote_frame : bool;
  is_error_frame : bool;
  dlc : Z;
  data : list byte
}.

Inductive exn_class :=
| FileNotFoundError
| PermissionError
| OtherException (name : string).

(** An exception object: its class and [str(e)]. *)
Record exn := mkexn { exn_cls : exn_class; exn_str : string }.

(** What iterating a reader does: it yields a message and goes on, stops,
    or raises; [offset] is the position in the input at which the
    exception is raised. *)
Inductive stream :=
| Stop
| Yield (msg : Message) (rest : stream)
| Raise (e : exn) (offset : N).

Fixpoint stream_of_list (msgs : list Message) : stream :=
  match msgs with
  | [] => Stop
  | m :: rest => Yield m (stream_of_list rest)
  end.

(** The messages delivered before the iteration ends. *)
Fixpoint delivered (s : stream) : list Message :=
  match s with
  | Yield m rest => m :: delivered rest
  | _ => []
  end.

(** How the iteration ends. *)
Fixpoint ending (s : stream) : option (exn * N) :=
  match s with
  | Stop => None
  | Yield _ rest => ending rest
  | Raise e offset => Some (e, offset)
  end.

(** ** The world: file system and standard output *)

Inductive node :=
| Dir (writable : bool)
| File (readable writable : bool) (content : string).

Record world := mkworld {
  fs : gmap string node;
  stdout : list string
}.

Inductive outcome (A : Type) :=
| Returned (a : A)
| Raised (e : exn).
Arguments Returned {A} a.
Arguments Raised {A} e.

(** Computations that read and change the world and may raise. *)
Definition M (A : Type) : Type := world → outcome A * world.

Definition ret {A} (a : A) : M A := λ w, (Returned a, w).

Definition raise {A} (e : exn) : M A := λ w, (Raised e, w).

Definition bind {A B} (c : M A) (k : A → M B) : M B :=
  λ w, match c w with
       | (Returned a, w') => k a w'
       | (Raised e, w') => (Raised e, w')
       end.

Notation "x <- c ;; k" := (bind c (λ x, k))
  (at level 100, c at next level, right associativity).
Notation "c ;; k" := (bind c (λ _, k))
  (at level 100, right associativity).

(** [try: c  except ...: handler]. *)
Definition try_except {A} (c : M A) (handler : exn → M A) : M A :=
  λ w, match c w with
       | (Returned a, w') => (Returned a, w')
       | (Raised e, w') => handler e w'
       end.

Definition print (line : string) : M unit :=
  λ w, (Returned tt, mkworld (fs w) (stdout w ++ [line])).

Definition get_fs : M (gmap string node) := λ w, (Returned (fs w), w).

Definition put_fs (f : gmap string node) : M unit :=
  λ w, (Returned tt, mkworld f (stdout w)).

(** ** Path strings ([pathlib.PurePosixPath]) *)

Module Pathlib.

(** Index of the last occurrence of [c] in [s] ([str.rfind]). *)
Fixpoint rfind (c : ascii) (s : string) : option nat :=
  match s with
  | EmptyString => None
  | String a s' =>
      match rfind c s' with
      | Some i => Some (S i)
      | None => if Ascii.eqb a c then Some O else None
      end
  end.

(** [s.split(c)]. *)
Fixpoint split (c : ascii) (s : string) : list string :=
  match s with
  | EmptyString => [EmptyString]
  | String a s' =>
      if Ascii.eqb a c then EmptyString :: split c s'
      else match split c s' with
           | [] => [String a EmptyString]
           | p :: ps => String a p :: ps
           end
  end.

Record path := mkpath { root : string; parts : list string }.

Definition nonempty (s : string) : bool :=
  match s with EmptyString => false | _ => true end.

(** A leading run of exactly two slashes is kept; any other leading
    run of slashes is the root [/]. *)
Definition splitroot (s : string) : string * string :=
  match s with
  | String "/" (String "/" (String "/" _)) => ("/", s)
  | String "/" (String "/" rest) => ("//", rest)
  | String "/" rest => ("/", rest)
  | _ => (EmptyString, s)
  end.

(** [Path(s)]: empty components and [.] components are dropped. *)
Definition Path (s : string) : path :=
  let '(r, rest) := splitroot s in
  mkpath r (filter (λ p, nonempty p && negb (String.eqb p ".")) (split "/" rest)).

(** [str(p)]. *)
Definition str (p : path) : string :=
  match root p, parts p with
  | EmptyString, [] => "."
  | r, ps => r +:+ Py.join "/" ps
  end.

(** [p.name]: the final component, empty when there is none. *)
Definition name (p : path) : string := List.last (parts p) EmptyString.

(** [p.suffix]: from the last dot of the name, unless that dot is the
    first or the last character of the name (the rule of Python up to
    version 3.13). *)
Definition suffix_of (nm : string) : string :=
  match rfind "." nm with
  | Some i =>
      if (0 <? i)%nat && (i <? String.length nm - 1)%nat
      then String.substring i (String.length nm - i) nm
      else EmptyString
  | None => EmptyString
  end.

Definition suffix (p : path) : string := suffix_of (name p).

(** [p.with_suffix(sfx)] for a well-formed [sfx]; [None] stands for the
    [ValueError] raised when the path has an empty name. *)
Definition with_suffix (p : path) (sfx : string) : option path :=
  let nm := name p in
  if nonempty nm then
    let old := suffix p in
    let nm' := String.substring 0 (String.length nm - String.length old) nm +:+ sfx in
    Some (mkpath (root p) (removelast (parts p) ++ [nm']))
  else None.

(** [os.path.dirname] of a path string as the system resolves it: the
    current directory when the string has no slash. *)
Definition dirname (s : string) : string :=
  match rfind "/" s with
  | None => "."
  | Some O => "/"
  | Some i => String.substring 0 i s
  end.

Definition basename (s : string) : string :=
  match rfind "/" s with
  | None => s
  | Some i => String.substring (S i) (String.length s - S i) s
  end.

End Pathlib.

(** ** The script *)

Section Script.

(** python-can's [BLFReader(file)] on the bytes of the input: the
    constructor raises, or gives an iterator. *)
Variable BLFReader : string → exn + stream.

(** [repr] of a string, as it appears in the text of system errors. *)
Variable repr : string → string.

Definition os_error (cls : exn_class) (errno : Z) (text path : string) : exn :=
  mkexn cls ("[Errno " +:+ Py.str_int errno +:+ "] " +:+ text +:+ ": " +:+ repr path).

(** [open(path, 'rb')]; the result stands for the bytes of the file. *)
Definition open_rb (path : string) : M string :=
  f <- get_fs ;;
  match f !! path with
  | None => raise (os_error FileNotFoundError 2 "No such file or directory" path)
  | Some (Dir _) =>
      raise (os_error (OtherException "IsADirectoryError") 21 "Is a directory" path)
  | Some (File readable _ content) =>
      if readable then ret content
      else raise (os_error PermissionError 13 "Permission denied" path)
  end.

(** [open(path, 'w')]: an existing file is truncated, a missing one is
    created in its directory. *)
Definition open_w (path : string) : M unit :=
  f <- get_fs ;;
  match f !! path with
  | Some (Dir _) =>
      raise (os_error (OtherException "IsADirectoryError") 21 "Is a directory" path)
  | Some (File readable writable _) =>
      if writable then put_fs (<[path := File readable writable EmptyString]> f)
      else raise (os_error PermissionError 13 "Permission denied" path)
  | None =>
      if negb (Pathlib.nonempty path) then
        raise (os_error FileNotFoundError 2 "No such file or directory" path)
      else if negb (Pathlib.nonempty (Pathlib.basename path)) then
        raise (os_error (OtherException "IsADirectoryError") 21 "Is a directory" path)
      else
        match f !! Pathlib.dirname path with
        | Some (Dir true) => put_fs (<[path := File true true EmptyString]> f)
        | Some (Dir false) =>
            raise (os_error PermissionError 13 "Permission denied" path)
        | Some (File _ _ _) =>
            raise (os_error (OtherException "NotADirectoryError") 20 "Not a directory" path)
        | None =>
            raise (os_error FileNotFoundError 2 "No such file or directory" path)
        end
  end.

Definition append_content (text : string) (n : node) : node :=
  match n with
  | File readable writable content => File readable writable (content +:+ text)
  | Dir writable => Dir writable
  end.

(** Writing to the file opened at [path]. *)
Definition write (path text : string) : M unit :=
  f <- get_fs ;;
  put_fs (alter (append_content text) path f).

Definition new_BLFReader (blf_file : string) : M stream :=
  match BLFReader blf_file with
  | inl e => raise e
  | inr reader => ret reader
  end.

Definition fieldnames : list string :=
  [ "timestamp"; "channel"; "arbitration_id"; "is_extended_id";
    "is_remote_frame"; "is_error_frame"; "dlc"; "data" ].

(** [' '.join([f'{byte:02X}' for byte in msg.data]) if msg.data else ''] *)
Definition data_hex (d : list byte) : string :=
  match d with
  | [] => EmptyString
  | _ => Py.join " " (Py.format_02X <$> d)
  end.

(** The [row] dictionary built for a message. *)
Definition row_of (msg : Message) : gmap string Py.value :=
  list_to_map
    [ ("timestamp", Py.PyStr (Py.format_6f (timestamp msg)));
      ("channel", match channel msg with
                  | Some v => v
                  | None => Py.PyStr "N/A"
                  end);
      ("arbitration_id", Py.PyStr ("0x" +:+ Py.format_X (arbitration_id msg)));
      ("is_extended_id", Py.PyStr (Py.str_bool (is_extended_id msg)));
      ("is_remote_frame", Py.PyStr (Py.str_bool (is_remote_frame msg)));
      ("is_error_frame", Py.PyStr (Py.str_bool (is_error_frame msg)));
      ("dlc", Py.PyInt (dlc msg));
      ("data", Py.PyStr (data_hex (data msg))) ].

(** The [for msg in reader] loop; it returns the two counters. *)
Fixpoint process_messages (csv_file : string) (include_error_frames : bool)
    (reader : stream) (message_count error_count : N) : M (N * N) :=
  match reader with
  | Stop => ret (message_count, error_count)
  | Raise e _ => raise e
  | Yield msg rest =>
      if is_error_frame msg && negb include_error_frames then
        process_messages csv_file include_error_frames rest
          message_count (error_count + 1)
      else
        write csv_file (Csv.render_row fieldnames (row_of msg)) ;;
        let message_count := message_count + 1 in
        (if message_count mod 10000 =? 0
         then print ("Processed " +:+ Py.str_int (Z.of_N message_count) +:+ " messages...")
         else ret tt) ;;
        process_messages csv_file include_error_frames rest
          message_count error_count
  end.

Definition newline : string := String "010"%char EmptyString.

(** The body of the [try] statement. *)
Definition convert_body (blf_file_path csv_file_path : string)
    (include_error_frames : bool) : M unit :=
  blf_file <- open_rb blf_file_path ;;
  reader <- new_BLFReader blf_file ;;
  open_w csv_file_path ;;
  write csv_file_path (Csv.render_header fieldnames) ;;
  counts <- process_messages csv_file_path include_error_frames reader 0 0 ;;
  print (newline +:+ "Conversion completed successfully!") ;;
  print ("Messages processed: " +:+ Py.str_int (Z.of_N (fst counts))) ;;
  (if 0 <? snd counts
   then print ("Error frames skipped: " +:+ Py.str_int (Z.of_N (snd counts)))
   else ret tt) ;;
  print ("Output file: " +:+ csv_file_path).

(** The [except] clauses, tried in order; each one returns [False]. *)
Definition convert_handler (blf_file_path : string) (e : exn) : M (option bool) :=
  match exn_cls e with
  | FileNotFoundError =>
      print ("Error: BLF file '" +:+ blf_file_path +:+ "' not found.") ;;
      ret (Some false)
  | PermissionError =>
      print "Error: Permission denied accessing files." ;;
      ret (Some false)
  | OtherException _ =>
      print ("Error during conversion: " +:+ exn_str e) ;;
      ret (Some false)
  end.

(** [convert_blf_to_csv]: the [try] statement either returns from a
    handler or falls through to the final [return True]. *)
Definition convert_blf_to_csv (blf_file_path csv_file_path : string)
    (include_error_frames : bool) : M bool :=
  returned <- try_except
                (convert_body blf_file_path csv_file_path include_error_frames ;;
                 ret None)
                (convert_handler blf_file_path) ;;
  match returned with
  | Some b => ret b
  | None => ret true
  end.

(** The parsed command line. *)
Record args := mkargs {
  input_file : string;
  output_file : option string;
  include_errors : bool
}.

(** [Path.exists]. *)
Definition path_exists (p : Pathlib.path) : M bool :=
  f <- get_fs ;; ret (bool_decide (is_Some (f !! Pathlib.str p))).

(** Truth value of an optional string argument. *)
Definition truthy (o : option string) : bool :=
  match o with
  | Some s => Pathlib.nonempty s
  | None => false
  end.

(** The end of [main], from the announcement of the paths on. *)
Definition main_convert (input_path output_path : Pathlib.path)
    (include : bool) : M Z :=
  print ("Converting BLF file: " +:+ Pathlib.str input_path) ;;
  print ("Output CSV file: " +:+ Pathlib.str output_path) ;;
  print ("Include error frames: " +:+ Py.str_bool include) ;;
  print (Py.repeat_str "-" 50) ;;
  success <- convert_blf_to_csv (Pathlib.str input_path) (Pathlib.str output_path)
               include ;;
  ret (if success then 0%Z else 1%Z).

Definition main (a : args) : M Z :=
  let input_path := Pathlib.Path (input_file a) in
  found <- path_exists input_path ;;
  if negb found then
    print ("Error: Input file '" +:+ input_file a +:+ "' does not exist.") ;;
    ret 1%Z
  else
    output_path <-
      (if truthy (output_file a)
       then ret (Pathlib.Path (default EmptyString (output_file a)))
       else match Pathlib.with_suffix input_path ".csv" with
            | Some p => ret p
            | None =>
                raise (mkexn (OtherException "ValueError")
                         ("PosixPath(" +:+ repr (Pathlib.str input_path)
                          +:+ ") has an empty name"))
            end) ;;
    main_convert input_path output_path (include_errors a).

End Script.

(** ** Observations used to state the properties *)

(** A delivered message is skipped when it is an error frame and error
    frames are not requested. *)
Definition skipped (include_error_frames : bool) (m : Message) : bool :=
  is_error_frame m && negb include_error_frames.

(** The messages for which a row is written, in order. *)
Definition written (include_error_frames : bool) (s : stream) : list Message :=
  List.filter (λ m, negb (skipped include_error_frames m)) (delivered s).

(** The messages counted as skipped error frames. *)
Definition omitted (include_error_frames : bool) (s : stream) : list Message :=
  List.filter (skipped include_error_frames) (delivered s).

(** The text of the data rows of a list of messages. *)
Fixpoint rows_text (msgs : list Message) : string :=
  match msgs with
  | [] => EmptyString
  | m :: rest => Csv.render_row fieldnames (row_of m) +:+ rows_text rest
  end.

Definition progress_line (message_count : N) : string :=
  "Processed " +:+ Py.str_int (Z.of_N message_count) +:+ " messages...".

(** The progress lines printed while [k] more rows are written after
    [message_count] rows. *)
Fixpoint progress_lines (message_count : N) (k : nat) : list string :=
  match k with
  | O => []
  | S k' =>
      (if (message_count + 1) mod 10000 =? 0
       then [progress_line (message_count + 1)] else [])
      ++ progress_lines (message_count + 1) k'
  end.

(** The line printed by the [except] clause that catches [e]. *)
Definition report (blf_file_path : string) (e : exn) : string :=
  match exn_cls e with
  | FileNotFoundError => "Error: BLF file '" +:+ blf_file_path +:+ "' not found."
  | PermissionError => "Error: Permission denied accessing files."
  | OtherException _ => "Error during conversion: " +:+ exn_str e
  end.

(** The lines printed after a completed loop. *)
Definition summary (csv_file_path : string) (message_count error_count : N)
    : list string :=
  [ newline +:+ "Conversion completed successfully!";
    "Messages processed: " +:+ Py.str_int (Z.of_N message_count) ]
  ++ (if 0 <? error_count
      then ["Error frames skipped: " +:+ Py.str_int (Z.of_N error_count)] else [])
  ++ [ "Output file: " +:+ csv_file_path ].

(** The header line of the output. *)
Definition header_line : string :=
  "timestamp,channel,arbitration_id,is_extended_id,is_remote_frame,is_error_frame,dlc,data"
  +:+ Csv.lineterminator.

(** ** Reading rendered text back *)

(** The value of a digit character; only [0-9] and uppercase [A-F] are
    digits. *)
Definition digit_value (c : ascii) : option N :=
  let n := N_of_ascii c in
  if (48 <=? n) && (n <=? 57) then Some (n - 48)
  else if (65 <=? n) && (n <=? 70) then Some (n - 55)
  else None.

(** The number written by the digits of [s] in base [base], read after
    the digits of [acc]; [None] when a character is not a digit of that
    base. *)
Fixpoint value_from (base acc : N) (s : string) : option N :=
  match s with
  | EmptyString => Some acc
  | String c s' =>
      match digit_value c with
      | Some d => if d <? base then value_from base (acc * base + d) s' else None
      | None => None
      end
  end.

(** A non-empty string of digits and its value. *)
Definition number_in (base : N) (s : string) : option N :=
  match s with
  | EmptyString => None
  | _ => value_from base 0 s
  end.

(** A signed number: an optional minus sign and a non-empty string of
    digits. *)
Definition signed_in (base : N) (s : string) : option Z :=
  match s with
  | String "-" s' => (λ n, (- Z.of_N n)%Z) <$> number_in base s'
  | _ => Z.of_N <$> number_in base s
  end.


(** [needle in hay]. *)
Fixpoint mentions (needle hay : string) : bool :=
  String.prefix needle hay
  || match hay with
     | EmptyString => false
     | String _ hay' => mentions needle hay'
     end.




(** ** Sample inputs *)

Module Sample.

(** A standard data frame: ID 0x123, DLC 4, data 01 02 03 04, at 1.5 s. *)
Definition can_0x123 : Message :=
  mkMessage (Py.mkfloat false 3 (-1)) (Some (Py.PyInt 0)) 291
    false false false 4 [x01; x02; x03; x04].

Definition error_frame : Message :=
  mkMessage (Py.mkfloat false 5 (-1)) (Some (Py.PyInt 0)) 0
    false false true 0 [].


(** ID 0x800 without the extended flag. *)
Definition wide_id : Message :=
  mkMessage (Py.mkfloat false 3 (-1)) (Some (Py.PyInt 0)) 2048
    false false false 1 [xff].

(** A message object without [channel] attribute. *)
Definition no_channel : Message :=
  mkMessage (Py.mkfloat false 3 (-1)) None 291
    false false false 1 [xff].

(** A reader that delivers [s] whatever the bytes. *)
Definition reader_of (s : stream) : string → exn + stream := λ _, inr s.

Definition repr (s : string) : string := "'" +:+ s +:+ "'".

(** A writable current directory holding the readable file [in.blf]. *)
Definition world0 : world :=
  mkworld (<["in.blf" := File true true "LOGG"]> (<["." := Dir true]> ∅)) [].

Definition bad_object : exn := mkexn (OtherException "ValueError") "bad".

End Sample.

Module Runs.

Import Sample.

(** The sample world once [out.csv] is open for writing. *)
Definition world1 : world :=
  mkworld (<["out.csv" := File true true EmptyString]> (fs world0)) [].

Definition row_0x123 : string :=
  "1.500000,0,0x123,False,False,False,4,01 02 03 04" +:+ Csv.lineterminator.

Definition row_error_frame : string :=
  "2.500000,0,0x0,False,False,True,0," +:+ Csv.lineterminator.



(** The file system after a conversion that left [content] in [out.csv]. *)
Definition fs_with_output (content : string) : gmap string node :=
  <["out.csv" := File true true content]> (fs world0).

Definition completed (message_count error_count : string) : list string :=
  [ newline +:+ "Conversion completed successfully!";
    "Messages processed: " +:+ message_count ]
  ++ (if Pathlib.nonempty error_count
      then ["Error frames skipped: " +:+ error_count] else [])
  ++ [ "Output file: out.csv" ].

(** A log that breaks after one message, at byte 200 of the input. *)
Definition broken_log : stream := Yield can_0x123 (Raise bad_object 200).

End Runs.

(** The line of a message in the output: the eight values separated by
    commas and ended by the line terminator; only the channel value can
    need quoting. *)
Definition row_line (m : Message) : string :=
  Py.format_6f (timestamp m)
  +:+ "," +:+ Csv.quote_field
                (Csv.field_text
                   (match channel m with Some v => v | None => Py.PyStr "N/A" end))
  +:+ "," +:+ "0x" +:+ Py.format_X (arbitration_id m)
  +:+ "," +:+ Py.str_bool (is_extended_id m)
  +:+ "," +:+ Py.str_bool (is_remote_frame m)
  +:+ "," +:+ Py.str_bool (is_error_frame m)
  +:+ "," +:+ Py.str_int (dlc m)
  +:+ "," +:+ data_hex (data m)
  +:+ Csv.lineterminator.

(** ** The process *)

(** [sys.exit(main())]: the exit status of the process is the value
    [main] returns; an exception that leaves [main] ends the process with
    status 1. *)
Definition exit_status (BLFReader : string → exn + stream) (repr : string → string)
    (a : args) (w : world) : Z :=
  match fst (main BLFReader repr a w) with
  | Returned status => status
  | Raised _ => 1%Z
  end.

(** The four lines [main] prints before it calls the conversion. *)
Definition announcement (input_path output_path : Pathlib.path) (include : bool)
    : list string :=
  [ "Converting BLF file: " +:+ Pathlib.str input_path;
    "Output CSV file: " +:+ Pathlib.str output_path;
    "Include error frames: " +:+ Py.str_bool include;
    Py.repeat_str "-" 50 ].

(** The magnitude of a timestamp in microseconds, as the fraction
    [micros_num / micros_den]. *)
Definition micros_num (x : Py.float) : N :=
  match Py.f_exp x with
  | Zneg _ => Py.f_mant x * 1000000
  | e => Py.f_mant x * 2 ^ Z.to_N e * 1000000
  end.

Definition micros_den (x : Py.float) : N :=
  match Py.f_exp x with
  | Zneg p => 2 ^ N.pos p
  | _ => 1
  end.

(** The eight texts written for a message, before quoting. *)
Definition row_texts (m : Message) : list string :=
  Csv.field_text <$> Csv.dict_to_list fieldnames (row_of m).

Module MoreSamples.

(** A file system with a root directory only. *)
Definition world_root : world := mkworld (<["/" := Dir true]> ∅) [].

(** A writable current directory holding the readable file [log.csv]. *)
Definition world_csv_input : world :=
  mkworld (<["log.csv" := File true true "LOGG"]> (<["." := Dir true]> ∅)) [].

(** The sample world with an output file left by an earlier run that
    may not be written. *)
Definition world_locked_output : world :=
  mkworld (<["out.csv" := File true false "old"]> (fs Sample.world0)) [].

(** A log of one data frame, one error frame and one more data frame. *)
Definition mixed_log : stream :=
  Yield Sample.can_0x123 (Yield Sample.error_frame (Yield Sample.wide_id Stop)).

(** A reader whose constructor rejects the bytes. *)
Definition rejecting_reader : string → exn + stream :=
  λ _, inl (mkexn (OtherException "BLFParseError") "Unexpected file format").

End MoreSamples.

(** [text.split(',')]: the way a line without quoted field is read back. *)
Definition split_commas (text : string) : list string := Pathlib.split "," text.

(** The channel value of a message is written without quotes: it is not
    a string, or a string free of commas, quotes and line breaks. *)
Definition channel_plain (m : Message) : bool :=
  match channel m with
  | Some (Py.PyStr s) => negb (Csv.needs_quote s)
  | _ => true
  end.

Module MoreRuns.

Import Sample MoreSamples.

(** The sample world after the conversion of the one-message log. *)
Definition world_converted : world :=
  mkworld (Runs.fs_with_output (header_line +:+ Runs.row_0x123))
    (Runs.completed "1" EmptyString).

End MoreRuns.

(** ** Sample evaluations *)

Example format_X_291 : Py.format_X 291 = "123".
Proof. reflexivity. Qed.

Example format_X_max_ext : Py.format_X 536870911 = "1FFFFFFF".
Proof. reflexivity. Qed.

Example format_02X_10 : Py.format_02X x0a = "0A".
Proof. reflexivity. Qed.

Example str_int_neg : Py.str_int (-10000) = "-10000".
Proof. reflexivity. Qed.

(** 1.5 = 3 * 2^-1 *)
Example format_6f_one_half : Py.format_6f (Py.mkfloat false 3 (-1)) = "1.500000".
Proof. reflexivity. Qed.

(** 2^-7 = 0.0078125 is a tie at six decimals and rounds to even. *)
Example format_6f_tie : Py.format_6f (Py.mkfloat false 1 (-7)) = "0.007812".
Proof. reflexivity. Qed.

(** 3 * 2^-7 = 0.0234375 is a tie that rounds up to the even neighbour. *)
Example format_6f_tie_up : Py.format_6f (Py.mkfloat false 3 (-7)) = "0.023438".
Proof. reflexivity. Qed.

(** The double nearest to 0.1 is 3602879701896397 * 2^-55. *)
Example format_6f_tenth :
  Py.format_6f (Py.mkfloat true 3602879701896397 (-55)) = "-0.100000".
Proof. vm_compute. reflexivity. Qed.

Example Path_plain : Pathlib.str (Pathlib.Path "logs/run1.blf") = "logs/run1.blf".
Proof. reflexivity. Qed.

Example Path_normalised : Pathlib.str (Pathlib.Path "./logs//run1.blf") = "logs/run1.blf".
Proof. reflexivity. Qed.

Example Path_empty : Pathlib.str (Pathlib.Path EmptyString) = ".".
Proof. reflexivity. Qed.

Example with_suffix_replaces :
  Pathlib.str <$> Pathlib.with_suffix (Pathlib.Path "/data/run1.blf") ".csv"
  = Some "/data/run1.csv".
Proof. reflexivity. Qed.

Example with_suffix_last_only :
  Pathlib.str <$> Pathlib.with_suffix (Pathlib.Path "run1.tar.blf") ".csv"
  = Some "run1.tar.csv".
Proof. reflexivity. Qed.

Example with_suffix_appends :
  Pathlib.str <$> Pathlib.with_suffix (Pathlib.Path "logs.d/run1") ".csv"
  = Some "logs.d/run1.csv".
Proof. reflexivity. Qed.

Example with_suffix_hidden :
  Pathlib.str <$> Pathlib.with_suffix (Pathlib.Path ".blf") ".csv" = Some ".blf.csv".
Proof. reflexivity. Qed.

Example with_suffix_no_name : Pathlib.with_suffix (Pathlib.Path "/") ".csv" = None.
Proof. reflexivity. Qed.

(** The double nearest to -1e-9 rounds to a negative zero. *)
Example format_6f_small_negative :
  Py.format_6f (Py.mkfloat true 4835703278458517 (-82)) = "-0.000000".
Proof. vm_compute. reflexivity. Qed.

(** 1e22 = 4768371582031250 * 2^21 is written in full. *)
Example format_6f_large :
  Py.format_6f (Py.mkfloat false 4768371582031250 21)
  = "10000000000000000000000.000000".
Proof. vm_compute. reflexivity. Qed.

Example format_X_negative : Py.format_X (-26) = "-1A".
Proof. reflexivity. Qed.

Example with_suffix_trailing_dot :
  Pathlib.str <$> Pathlib.with_suffix (Pathlib.Path "foo.") ".csv" = Some "foo..csv".
Proof. reflexivity. Qed.

Example Path_two_slashes : Pathlib.str (Pathlib.Path "//x/y.blf") = "//x/y.blf".
Proof. reflexivity. Qed.

Example Path_three_slashes : Pathlib.str (Pathlib.Path "///x/y.blf") = "/x/y.blf".
Proof. reflexivity. Qed.

(** A field with a comma and quotes is quoted, its quotes doubled. *)
Example quote_field_special :
  Csv.quote_field ("x,y " +:+ String Csv.quotechar ("q" +:+ String Csv.quotechar EmptyString))
  = String Csv.quotechar
      ("x,y " +:+ String Csv.quotechar (String Csv.quotechar
         ("q" +:+ String Csv.quotechar (String Csv.quotechar
            (String Csv.quotechar EmptyString))))).
Proof. reflexivity. Qed.

Example quote_field_spaces : Csv.quote_field "01 02 03 04" = "01 02 03 04".
Proof. reflexivity. Qed.
(** ** Strings *)

Lemma append_cons (c : ascii) (s t : string) :
  String c s +:+ t = String c (s +:+ t).
Proof. reflexivity. Qed.

Lemma append_nil_l (s : string) : EmptyString +:+ s = s.
Proof. reflexivity. Qed.

Lemma append_nil_r (s : string) : s +:+ EmptyString = s.
Proof.
  induction s as [|c s IH]; [reflexivity|]. by rewrite append_cons, IH.
Qed.

Lemma append_assoc (s1 s2 s3 : string) : (s1 +:+ s2) +:+ s3 = s1 +:+ (s2 +:+ s3).
Proof.
  induction s1 as [|c s1 IH]; [reflexivity|]. by rewrite !append_cons, IH.
Qed.

Lemma append_length (s1 s2 : string) :
  String.length (s1 +:+ s2) = (String.length s1 + String.length s2)%nat.
Proof.
  induction s1 as [|c s1 IH]; [reflexivity|].
  rewrite append_cons. cbn [String.length]. by rewrite IH.
Qed.

Lemma world_eta (w : world) : mkworld (fs w) (stdout w) = w.
Proof. by destruct w. Qed.

(** ** The message loop *)

Lemma write_open (csv text : string) (w : world) readable writable content :
  fs w !! csv = Some (File readable writable content) →
  write csv text w
  = (Returned tt,
     mkworld (<[csv := File readable writable (content +:+ text)]> (fs w)) (stdout w)).
Proof.
  intros Hopen. unfold write, bind, get_fs, put_fs. do 2 f_equal.
  apply map_eq; intros k. rewrite lookup_alter, lookup_insert.
  destruct (decide (csv = k)) as [<-|Hne]; [by rewrite Hopen | reflexivity].
Qed.

(** The loop delivers the counters or the exception that ends the
    iteration; the rows of the messages not skipped are appended to the
    open file, in order, and nothing else changes in the file system. *)
Lemma process_messages_run (csv : string) (include : bool) (reader : stream) :
  ∀ (message_count error_count : N) (w : world) readable writable content,
    fs w !! csv = Some (File readable writable content) →
    process_messages csv include reader message_count error_count w
    = (match ending reader with
       | None =>
           Returned (message_count + N.of_nat (length (written include reader)),
                     error_count + N.of_nat (length (omitted include reader)))
       | Some (e, _) => Raised e
       end,
       mkworld
         (<[csv := File readable writable
                     (content +:+ rows_text (written include reader))]> (fs w))
         (stdout w ++ progress_lines message_count (length (written include reader)))).
Proof.
  induction reader as [|msg rest IH|e offset];
    intros message_count error_count w readable writable content Hopen.
  - cbn. unfold ret. rewrite !N.add_0_r, append_nil_r, app_nil_r.
    rewrite (insert_id _ _ _ Hopen). by rewrite world_eta.
  - unfold written, omitted. cbn [process_messages delivered List.filter ending].
    fold (skipped include msg).
    destruct (skipped include msg) eqn:Hskip; cbn [negb].
    + rewrite (IH _ _ _ _ _ _ Hopen). unfold written, omitted.
      destruct (ending rest) as [[e ?]|]; [reflexivity|].
      cbn [length]. do 3 f_equal. lia.
    + unfold bind at 1. rewrite (write_open _ _ _ _ _ _ Hopen).
      unfold bind at 1.
      set (w1 := mkworld _ _).
      assert (Hopen1 : ∀ out, fs (mkworld (fs w1) out) !! csv
                = Some (File readable writable
                          (content +:+ Csv.render_row fieldnames (row_of msg)))).
      { intros out. subst w1. cbn. apply lookup_insert_eq. }
      cbn [length rows_text progress_lines].
      destruct (((message_count + 1) mod 10000 =? 0)) eqn:Hmod.
      * unfold print at 1. rewrite (IH _ _ _ _ _ _ (Hopen1 _)). unfold written, omitted.
        subst w1. cbn [fs stdout]. rewrite insert_insert_eq, append_assoc.
        rewrite <- app_assoc.
        destruct (ending rest) as [[e ?]|]; [reflexivity|].
        do 3 f_equal. lia.
      * unfold ret at 1. rewrite (IH _ _ _ _ _ _ (Hopen1 (stdout w))).
        unfold written, omitted.
        subst w1. cbn [fs stdout]. rewrite insert_insert_eq, append_assoc.
        destruct (ending rest) as [[e ?]|]; [reflexivity|].
        do 3 f_equal. lia.
  - cbn. unfold raise. rewrite append_nil_r, app_nil_r.
    rewrite (insert_id _ _ _ Hopen). by rewrite world_eta.
Qed.

(** ** Running the conversion *)

Section Conversion.

Variable BLFReader : string → exn + stream.
Variable repr : string → string.

Lemma header_line_rendered : Csv.render_header fieldnames = header_line.
Proof. vm_compute. reflexivity. Qed.

(** The handlers print one line and make the function return [False];
    they leave the file system as the body left it. *)
Lemma convert_handler_run (blf : string) (e : exn) (w : world) :
  convert_handler blf e w
  = (Returned (Some false), mkworld (fs w) (stdout w ++ [report blf e])).
Proof.
  unfold convert_handler, report. by destruct (exn_cls e).
Qed.

(** The function returns [True] when its body completes and [False],
    after one report line, when its body raises. *)
Lemma convert_blf_to_csv_run (blf csv : string) (include : bool) (w : world) :
  convert_blf_to_csv BLFReader repr blf csv include w
  = match convert_body BLFReader repr blf csv include w with
    | (Returned _, w1) => (Returned true, w1)
    | (Raised e, w1) =>
        (Returned false, mkworld (fs w1) (stdout w1 ++ [report blf e]))
    end.
Proof.
  unfold convert_blf_to_csv, try_except, bind at 1 2.
  destruct (convert_body BLFReader repr blf csv include w) as [[[]|e] w1].
  - reflexivity.
  - by rewrite convert_handler_run.
Qed.

(** A successful [open(path, 'w')] leaves an empty file at [path] and
    changes nothing else. *)
Lemma open_w_run (csv : string) (w w1 : world) :
  open_w repr csv w = (Returned tt, w1) →
  ∃ readable writable,
    w1 = mkworld (<[csv := File readable writable EmptyString]> (fs w)) (stdout w).
Proof.
  unfold open_w, bind, get_fs, put_fs, raise.
  repeat (case_match; try discriminate); intros [= <-]; eauto.
Qed.

Lemma open_w_raises (csv : string) (w w1 : world) (e : exn) :
  open_w repr csv w = (Raised e, w1) → w1 = w.
Proof.
  unfold open_w, bind, get_fs, put_fs, raise.
  repeat (case_match; try discriminate); by intros [= _ <-].
Qed.

Lemma open_rb_run (blf : string) (w : world) writable bytes :
  fs w !! blf = Some (File true writable bytes) →
  open_rb repr blf w = (Returned bytes, w).
Proof.
  intros Hin. unfold open_rb, bind, get_fs. by rewrite Hin.
Qed.

(** The body of the [try] statement once both files are open: the
    output holds the header and the rows written before the iteration
    ended. *)
Lemma convert_body_run (blf csv : string) (include : bool) (w w1 : world)
    writable bytes (reader : stream) :
  fs w !! blf = Some (File true writable bytes) →
  BLFReader bytes = inr reader →
  open_w repr csv w = (Returned tt, w1) →
  ∃ readable' writable',
    convert_body BLFReader repr blf csv include w
    = (match ending reader with
       | None => Returned tt
       | Some (e, _) => Raised e
       end,
       mkworld
         (<[csv := File readable' writable'
                     (header_line +:+ rows_text (written include reader))]> (fs w))
         (stdout w
          ++ progress_lines 0 (length (written include reader))
          ++ match ending reader with
             | None =>
                 summary csv (N.of_nat (length (written include reader)))
                             (N.of_nat (length (omitted include reader)))
             | Some _ => []
             end)).
Proof.
  intros Hin Hreader Hout.
  destruct (open_w_run _ _ _ Hout) as (r & wr & Hw1).
  exists r, wr.
  unfold convert_body. unfold bind at 1. rewrite (open_rb_run _ _ _ _ Hin).
  unfold bind at 1, new_BLFReader. rewrite Hreader. unfold ret at 1.
  unfold bind at 1. rewrite Hout.
  unfold bind at 1.
  rewrite (write_open csv _ w1 r wr EmptyString)
    by (rewrite Hw1; apply lookup_insert_eq).
  rewrite header_line_rendered, append_nil_l.
  unfold bind at 1.
  erewrite process_messages_run by (cbn; apply lookup_insert_eq).
  rewrite Hw1. cbn [fs stdout]. rewrite !insert_insert_eq.
  destruct (ending reader) as [[e offset]|].
  - by rewrite app_nil_r.
  - rewrite !N.add_0_l. unfold summary, bind, print, ret. cbn [fst snd fs stdout].
    destruct (0 <? N.of_nat (length (omitted include reader)));
      cbn [fs stdout]; by rewrite <- !app_assoc.
Qed.

End Conversion.

(** ** Digits and numbers *)

Lemma digit_value_char (d : N) : d < 16 → digit_value (Py.digit_char d) = Some d.
Proof.
  intros Hd.
  assert (∃ k, d = N.of_nat k ∧ (k < 16)%nat) as (k & -> & Hk)
    by (exists (N.to_nat d); lia).
  do 16 (destruct k as [|k]; [reflexivity|]). lia.
Qed.

Lemma size_nat_bound (n : N) : n < 2 ^ N.of_nat (N.size_nat n).
Proof.
  destruct n as [|p]; [reflexivity|]. cbn [N.size_nat].
  induction p as [p IH|p IH|]; cbn [Pos.size_nat];
    rewrite ?Nat2N.inj_succ, ?N.pow_succ_r'.
  - change (N.pos p~1) with (2 * N.pos p + 1). lia.
  - change (N.pos p~0) with (2 * N.pos p). lia.
  - reflexivity.
Qed.

Lemma to_base_step (fuel : nat) (base n : N) (acc : string) :
  Py.to_base (S fuel) base n acc
  = if n / base =? 0 then String (Py.digit_char (n mod base)) acc
    else Py.to_base fuel base (n / base) (String (Py.digit_char (n mod base)) acc).
Proof. reflexivity. Qed.

Lemma fixed_digits_step (w : nat) (base n : N) (acc : string) :
  Py.fixed_digits (S w) base n acc
  = Py.fixed_digits w base (n / base) (String (Py.digit_char (n mod base)) acc).
Proof. reflexivity. Qed.

Section Digits.

Variable base : N.
Hypothesis base_ge : 2 ≤ base.
Hypothesis base_le : base ≤ 16.

Lemma value_from_app (acc : N) (s1 s2 : string) :
  value_from base acc (s1 +:+ s2)
  = match value_from base acc s1 with
    | Some v => value_from base v s2
    | None => None
    end.
Proof.
  revert acc. induction s1 as [|c s1 IH]; intros acc; [reflexivity|].
  rewrite append_cons. cbn [value_from].
  destruct (digit_value c) as [d|]; [|reflexivity].
  destruct (d <? base); [apply IH | reflexivity].
Qed.

Lemma value_from_digit (acc d : N) :
  d < base →
  value_from base acc (String (Py.digit_char d) EmptyString) = Some (acc * base + d).
Proof.
  intros Hd. cbn [value_from]. rewrite digit_value_char by lia.
  by rewrite (proj2 (N.ltb_lt _ _) Hd).
Qed.

(** The digits produced with enough fuel read back as the number. *)
Lemma to_base_spec (fuel : nat) :
  ∀ n acc, n < 2 ^ N.of_nat fuel →
    ∃ ds, Py.to_base (S fuel) base n acc = ds +:+ acc
          ∧ ds ≠ EmptyString
          ∧ ∀ hi, value_from base hi ds
                  = Some (hi * base ^ N.of_nat (String.length ds) + n).
Proof.
  induction fuel as [|fuel IH]; intros n acc Hn; rewrite to_base_step.
  - assert (n = 0) as -> by (cbn in Hn; lia).
    rewrite N.Div0.div_0_l, N.Div0.mod_0_l. cbn [N.eqb].
    exists (String (Py.digit_char 0) EmptyString). split; [reflexivity|].
    split; [discriminate|]. intros hi. rewrite value_from_digit by lia.
    cbn [String.length]. f_equal. rewrite N.pow_1_r. lia.
  - destruct (n / base =? 0) eqn:Hq.
    + apply N.eqb_eq, N.div_small_iff in Hq; [|lia].
      rewrite N.mod_small by lia.
      exists (String (Py.digit_char n) EmptyString). split; [reflexivity|].
      split; [discriminate|]. intros hi. rewrite value_from_digit by lia.
      cbn [String.length]. f_equal. rewrite N.pow_1_r. lia.
    + assert (Hlt : n / base < 2 ^ N.of_nat fuel).
      { apply N.Div0.div_lt_upper_bound.
        rewrite Nat2N.inj_succ, N.pow_succ_r' in Hn. nia. }
      destruct (IH (n / base) (String (Py.digit_char (n mod base)) acc) Hlt)
        as (ds & Heq & Hne & Hval).
      exists (ds +:+ String (Py.digit_char (n mod base)) EmptyString).
      split; [by rewrite Heq, append_assoc|].
      split; [destruct ds; [done | discriminate]|].
      intros hi. rewrite value_from_app, Hval.
      assert (Hmod : n mod base < base) by (apply N.mod_lt; lia).
      rewrite value_from_digit by done. f_equal.
      rewrite append_length. cbn [String.length].
      rewrite Nat.add_1_r, Nat2N.inj_succ, N.pow_succ_r'.
      pose proof (N.Div0.div_mod n base) as Hdm. nia.
Qed.

Lemma digits_value (n : N) : number_in base (Py.digits base n) = Some n.
Proof.
  unfold Py.digits.
  destruct (to_base_spec (N.size_nat n) n EmptyString (size_nat_bound n))
    as (ds & -> & Hne & Hval).
  rewrite append_nil_r. unfold number_in.
  destruct ds; [done|]. rewrite Hval; f_equal; lia.
Qed.

(** Fixed-width rendering gives exactly [w] digits, those of [n]
    modulo [base ^ w]. *)
Lemma fixed_digits_spec (w : nat) :
  ∀ n acc,
    ∃ ds, Py.fixed_digits w base n acc = ds +:+ acc
          ∧ String.length ds = w
          ∧ ∀ hi, value_from base hi ds
                  = Some (hi * base ^ N.of_nat w + n mod base ^ N.of_nat w).
Proof.
  induction w as [|w IH]; intros n acc.
  - exists EmptyString. split; [reflexivity|]. split; [reflexivity|].
    intros hi. cbn [value_from N.of_nat]. f_equal.
    rewrite N.pow_0_r, N.mod_1_r. lia.
  - rewrite fixed_digits_step.
    destruct (IH (n / base) (String (Py.digit_char (n mod base)) acc))
      as (ds & Heq & Hlen & Hval).
    exists (ds +:+ String (Py.digit_char (n mod base)) EmptyString).
    split; [by rewrite Heq, append_assoc|].
    split; [rewrite append_length, Hlen; cbn; lia|].
    intros hi. rewrite value_from_app, Hval.
    assert (Hmod : n mod base < base) by (apply N.mod_lt; lia).
    rewrite value_from_digit by done. f_equal.
    rewrite Nat2N.inj_succ, N.pow_succ_r'.
    rewrite (N.Div0.mod_mul_r n base (base ^ N.of_nat w)). nia.
Qed.

(** A sign followed by the digits of the magnitude reads back as the
    integer. *)
Lemma signed_digits_value (z : Z) :
  signed_in base (Py.sign_prefix z +:+ Py.digits base (Z.abs_N z)) = Some z.
Proof.
  pose proof (digits_value (Z.abs_N z)) as Hd.
  destruct z as [|p|p]; cbn [Py.sign_prefix].
  - rewrite append_nil_l. unfold signed_in.
    destruct (Py.digits base (Z.abs_N 0)) as [|c s] eqn:Hs; [done|].
    destruct (decide (c = "-"%char)) as [->|Hc].
    { unfold number_in in Hd. cbn in Hd. discriminate. }
    replace (match c with "-"%char => _ | _ => Z.of_N <$> number_in base (String c s) end)
      with (Z.of_N <$> number_in base (String c s)).
    + by rewrite Hd.
    + destruct c as [[] [] [] [] [] [] [] []]; try reflexivity. by destruct Hc.
  - rewrite append_nil_l. unfold signed_in.
    destruct (Py.digits base (Z.abs_N (Z.pos p))) as [|c s] eqn:Hs; [done|].
    destruct (decide (c = "-"%char)) as [->|Hc].
    { unfold number_in in Hd. cbn in Hd. discriminate. }
    replace (match c with "-"%char => _ | _ => Z.of_N <$> number_in base (String c s) end)
      with (Z.of_N <$> number_in base (String c s)).
    + rewrite Hd. cbn. f_equal.
    + destruct c as [[] [] [] [] [] [] [] []]; try reflexivity. by destruct Hc.
  - change ("-" +:+ ?s) with (String "-" s). unfold signed_in.
    rewrite Hd. cbn. f_equal.
Qed.

End Digits.

Lemma str_int_value (z : Z) : signed_in 10 (Py.str_int z) = Some z.
Proof. apply signed_digits_value; lia. Qed.



Lemma data_hex_cons (b : byte) (d : list byte) :
  data_hex (b :: d)
  = match d with
    | [] => Py.format_02X b
    | _ => Py.format_02X b +:+ " " +:+ data_hex d
    end.
Proof. by destruct d. Qed.



(** ** Fixed-point rendering of timestamps *)

(** The rendered text is an optional minus sign, the digits of the whole
    part, a decimal point and exactly six digits: those of the scaled and
    rounded magnitude. *)
Lemma format_6f_shape (x : Py.float) :
  ∃ whole frac,
    Py.format_6f x
    = (if Py.f_neg x then "-" else EmptyString) +:+ whole +:+ "." +:+ frac
    ∧ number_in 10 whole = Some (Py.scaled_round x / 1000000)
    ∧ String.length frac = 6%nat
    ∧ value_from 10 0 frac = Some (Py.scaled_round x mod 1000000).
Proof.
  unfold Py.format_6f. cbv zeta.
  destruct (fixed_digits_spec 10 ltac:(lia) ltac:(lia) 6
              (Py.scaled_round x mod 1000000) EmptyString)
    as (frac & Hfrac & Hlen & Hval).
  exists (Py.digits 10 (Py.scaled_round x / 1000000)), frac.
  rewrite Hfrac, append_nil_r. split; [reflexivity|].
  split; [apply digits_value; lia|]. split; [done|].
  rewrite Hval. f_equal. change (10 ^ N.of_nat 6) with 1000000.
  rewrite N.Div0.mod_mod. lia.
Qed.

(** The scaled magnitude is rounded to a nearest integer: it is off by at
    most one half. *)
Lemma scaled_round_nearest (neg : bool) (mant : N) (p : positive) :
  let q := Py.scaled_round (Py.mkfloat neg mant (Z.neg p)) in
  let num := mant * 1000000 in
  let den := 2 ^ N.pos p in
  2 * (q * den - num) ≤ den ∧ 2 * (num - q * den) ≤ den.
Proof.
  cbv zeta. unfold Py.scaled_round. cbn [Py.f_exp Py.f_mant].
  set (num := mant * 1000000). set (den := 2 ^ N.pos p).
  assert (Hden : 0 < den) by (subst den; apply N.neq_0_lt_0, N.pow_nonzero; lia).
  pose proof (N.Div0.div_mod num den) as Hdm.
  pose proof (N.mod_lt num den ltac:(lia)) as Hr.
  generalize dependent (num mod den). generalize dependent (num / den).
  intros q0 r Hdm Hr. clearbody num den.
  destruct ((den <? 2 * r) || ((2 * r =? den) && N.odd q0)) eqn:Hup.
  - apply orb_true_iff in Hup as [Hup|Hup].
    + apply N.ltb_lt in Hup. split; nia.
    + apply andb_true_iff in Hup as [Hup _]. apply N.eqb_eq in Hup. split; nia.
  - apply orb_false_iff in Hup as [Hup _]. apply N.ltb_ge in Hup. split; nia.
Qed.

(** ** Suffix replacement *)

Lemma rfind_app_sep (c : ascii) (stem ext : string) :
  Pathlib.rfind c ext = None →
  Pathlib.rfind c (stem +:+ String c ext) = Some (String.length stem).
Proof.
  intros Hext. induction stem as [|a stem IH].
  - rewrite append_nil_l. cbn [Pathlib.rfind String.length].
    by rewrite Hext, Ascii.eqb_refl.
  - rewrite append_cons. cbn [Pathlib.rfind String.length]. by rewrite IH.
Qed.

Lemma substring_prefix (s t : string) :
  String.substring 0 (String.length s) (s +:+ t) = s.
Proof.
  induction s as [|a s IH].
  - by destruct t.
  - rewrite append_cons. cbn [String.length String.substring]. by rewrite IH.
Qed.

Lemma substring_whole (s : string) : String.substring 0 (String.length s) s = s.
Proof. rewrite <- (append_nil_r s) at 2. apply substring_prefix. Qed.

Lemma substring_skip (s t : string) (m : nat) :
  String.substring (String.length s) m (s +:+ t) = String.substring 0 m t.
Proof.
  induction s as [|a s IH]; [reflexivity|].
  rewrite append_cons. cbn [String.length String.substring]. apply IH.
Qed.

(** The suffix of a name [stem.ext] is [.ext], provided the stem and the
    extension are not empty and the extension has no dot. *)
Lemma suffix_of_ext (stem ext : string) :
  stem ≠ EmptyString → ext ≠ EmptyString → Pathlib.rfind "." ext = None →
  Pathlib.suffix_of (stem +:+ String "." ext) = String "." ext.
Proof.
  intros Hstem Hext Hdot. unfold Pathlib.suffix_of.
  rewrite (rfind_app_sep _ _ _ Hdot), append_length. cbn [String.length].
  assert (0 < String.length stem)%nat by (destruct stem; [done | cbn; lia]).
  assert (0 < String.length ext)%nat by (destruct ext; [done | cbn; lia]).
  replace ((0 <? String.length stem)%nat) with true
    by (symmetry; apply Nat.ltb_lt; lia).
  replace ((String.length stem <? String.length stem + S (String.length ext) - 1)%nat)
    with true by (symmetry; apply Nat.ltb_lt; lia).
  cbn [andb]. rewrite substring_skip.
  replace (String.length stem + S (String.length ext) - String.length stem)%nat
    with (String.length (String "." ext)) by (cbn [String.length]; lia).
  apply substring_whole.
Qed.

Lemma rfind_split (c : ascii) (s : string) :
  ∀ i, Pathlib.rfind c s = Some i →
       ∃ before after,
         s = before +:+ String c after
         ∧ String.length before = i
         ∧ Pathlib.rfind c after = None.
Proof.
  induction s as [|a s IH]; intros i Hi; [discriminate|].
  cbn [Pathlib.rfind] in Hi. destruct (Pathlib.rfind c s) as [j|] eqn:Hj.
  - injection Hi as <-. destruct (IH j eq_refl) as (before & after & -> & Hlen & Hnone).
    exists (String a before), after. rewrite append_cons. cbn [String.length].
    by rewrite Hlen.
  - destruct (Ascii.eqb a c) eqn:Hac; [|discriminate]. injection Hi as <-.
    apply Ascii.eqb_eq in Hac as ->. by exists EmptyString, s.
Qed.

(** A name has no suffix, or it is [stem.ext] with a stem and an extension
    that are not empty and an extension without dot. *)
Lemma suffix_of_cases (nm : string) :
  Pathlib.suffix_of nm = EmptyString
  ∨ ∃ stem ext,
      nm = stem +:+ String "." ext
      ∧ stem ≠ EmptyString ∧ ext ≠ EmptyString ∧ Pathlib.rfind "." ext = None.
Proof.
  unfold Pathlib.suffix_of. destruct (Pathlib.rfind "." nm) as [i|] eqn:Hi; [|by left].
  destruct ((0 <? i)%nat && (i <? String.length nm - 1)%nat) eqn:Hin; [|by left].
  right. apply andb_true_iff in Hin as [Hpos Hlast].
  apply Nat.ltb_lt in Hpos, Hlast.
  destruct (rfind_split _ _ _ Hi) as (stem & ext & -> & Hlen & Hnone).
  exists stem, ext. split; [reflexivity|]. split; [|split; [|exact Hnone]].
  - intros ->. cbn in Hlen. lia.
  - intros ->. rewrite append_length in Hlast. cbn [String.length] in Hlast. lia.
Qed.

(** Replacing the suffix of [.../stem.ext] gives [.../stem.csv]. *)
Lemma with_suffix_ext (p : Pathlib.path) (stem ext sfx : string) :
  Pathlib.name p = stem +:+ String "." ext →
  stem ≠ EmptyString → ext ≠ EmptyString → Pathlib.rfind "." ext = None →
  Pathlib.with_suffix p sfx
  = Some (Pathlib.mkpath (Pathlib.root p)
            (removelast (Pathlib.parts p) ++ [stem +:+ sfx])).
Proof.
  intros Hname Hstem Hext Hdot. unfold Pathlib.with_suffix, Pathlib.suffix.
  rewrite Hname, (suffix_of_ext _ _ Hstem Hext Hdot).
  replace (Pathlib.nonempty (stem +:+ String "." ext)) with true
    by (destruct stem; [done | reflexivity]).
  rewrite append_length.
  replace (String.length stem + String.length (String "." ext)
           - String.length (String "." ext))%nat
    with (String.length stem) by lia.
  by rewrite substring_prefix.
Qed.


(** ** The command line *)

Section CommandLine.

Variable BLFReader : string → exn + stream.
Variable repr : string → string.

Lemma main_missing (a : args) (w : world) :
  fs w !! Pathlib.str (Pathlib.Path (input_file a)) = None →
  main BLFReader repr a w
  = (Returned 1%Z,
     mkworld (fs w)
       (stdout w ++ ["Error: Input file '" +:+ input_file a +:+ "' does not exist."])).
Proof.
  intros Hmissing. unfold main, path_exists, bind at 1 2, get_fs, ret at 1.
  rewrite Hmissing.
  rewrite bool_decide_eq_false_2 by (intros [? ?]; discriminate).
  reflexivity.
Qed.

Lemma main_found (a : args) (w : world) :
  is_Some (fs w !! Pathlib.str (Pathlib.Path (input_file a))) →
  main BLFReader repr a w
  = if truthy (output_file a)
    then main_convert BLFReader repr (Pathlib.Path (input_file a))
           (Pathlib.Path (default EmptyString (output_file a)))
           (include_errors a) w
    else match Pathlib.with_suffix (Pathlib.Path (input_file a)) ".csv" with
         | Some p =>
             main_convert BLFReader repr (Pathlib.Path (input_file a)) p
               (include_errors a) w
         | None =>
             (Raised (mkexn (OtherException "ValueError")
                        ("PosixPath("
                         +:+ repr (Pathlib.str (Pathlib.Path (input_file a)))
                         +:+ ") has an empty name")), w)
         end.
Proof.
  intros Hfound. unfold main, path_exists, bind at 1 2, get_fs, ret at 1.
  rewrite bool_decide_eq_true_2 by done. cbn [negb].
  destruct (truthy (output_file a)); [reflexivity|].
  unfold bind at 1.
  by destruct (Pathlib.with_suffix (Pathlib.Path (input_file a)) ".csv").
Qed.

End CommandLine.

(** ** The row of a message *)

Ltac row_lookup :=
  unfold row_of; cbn [list_to_map foldr uncurry fst snd];
  repeat (rewrite lookup_insert_ne by discriminate);
  apply lookup_insert_eq.

Lemma row_of_timestamp (m : Message) :
  row_of m !! "timestamp" = Some (Py.PyStr (Py.format_6f (timestamp m))).
Proof. row_lookup. Qed.

Lemma row_of_channel (m : Message) :
  row_of m !! "channel"
  = Some (match channel m with Some v => v | None => Py.PyStr "N/A" end).
Proof. row_lookup. Qed.

Lemma row_of_arbitration_id (m : Message) :
  row_of m !! "arbitration_id"
  = Some (Py.PyStr ("0x" +:+ Py.format_X (arbitration_id m))).
Proof. row_lookup. Qed.

Lemma row_of_is_extended_id (m : Message) :
  row_of m !! "is_extended_id" = Some (Py.PyStr (Py.str_bool (is_extended_id m))).
Proof. row_lookup. Qed.

Lemma row_of_is_remote_frame (m : Message) :
  row_of m !! "is_remote_frame" = Some (Py.PyStr (Py.str_bool (is_remote_frame m))).
Proof. row_lookup. Qed.

Lemma row_of_is_error_frame (m : Message) :
  row_of m !! "is_error_frame" = Some (Py.PyStr (Py.str_bool (is_error_frame m))).
Proof. row_lookup. Qed.

Lemma row_of_dlc (m : Message) : row_of m !! "dlc" = Some (Py.PyInt (dlc m)).
Proof. row_lookup. Qed.

Lemma row_of_data (m : Message) :
  row_of m !! "data" = Some (Py.PyStr (data_hex (data m))).
Proof. row_lookup. Qed.

(** The values of a row in the order they are written. *)
Lemma row_values (m : Message) :
  Csv.dict_to_list fieldnames (row_of m)
  = [ Py.PyStr (Py.format_6f (timestamp m));
      match channel m with Some v => v | None => Py.PyStr "N/A" end;
      Py.PyStr ("0x" +:+ Py.format_X (arbitration_id m));
      Py.PyStr (Py.str_bool (is_extended_id m));
      Py.PyStr (Py.str_bool (is_remote_frame m));
      Py.PyStr (Py.str_bool (is_error_frame m));
      Py.PyInt (dlc m);
      Py.PyStr (data_hex (data m)) ].
Proof.
  unfold Csv.dict_to_list, fieldnames. cbn [fmap list_fmap].
  by rewrite row_of_timestamp, row_of_channel, row_of_arbitration_id,
    row_of_is_extended_id, row_of_is_remote_frame, row_of_is_error_frame,
    row_of_dlc, row_of_data.
Qed.

(** ** Messages kept and skipped *)

Lemma delivered_of_list (msgs : list Message) : delivered (stream_of_list msgs) = msgs.
Proof. induction msgs as [|m msgs IH]; [reflexivity|]. cbn. by rewrite IH. Qed.

Lemma ending_of_list (msgs : list Message) : ending (stream_of_list msgs) = None.
Proof. induction msgs as [|m msgs IH]; [reflexivity | exact IH]. Qed.

Lemma written_include (s : stream) : written true s = delivered s.
Proof.
  unfold written. induction (delivered s) as [|m l IH]; [reflexivity|].
  cbn [List.filter]. unfold skipped at 1. rewrite andb_false_r. cbn [negb].
  by rewrite IH.
Qed.

Lemma omitted_include (s : stream) : omitted true s = [].
Proof.
  unfold omitted. induction (delivered s) as [|m l IH]; [reflexivity|].
  cbn [List.filter]. unfold skipped at 1. by rewrite andb_false_r.
Qed.

Lemma written_exclude (s : stream) :
  written false s = List.filter (λ m, negb (is_error_frame m)) (delivered s).
Proof.
  unfold written. apply List.filter_ext. intros m. unfold skipped.
  by rewrite andb_true_r.
Qed.

Lemma omitted_exclude (s : stream) :
  omitted false s = List.filter is_error_frame (delivered s).
Proof.
  unfold omitted. apply List.filter_ext. intros m. unfold skipped.
  by rewrite andb_true_r.
Qed.


Lemma mentions_app (needle before after : string) :
  mentions needle (before +:+ needle +:+ after) = true.
Proof.
  induction before as [|c before IH].
  - rewrite append_nil_l.
    assert (String.prefix needle (needle +:+ after) = true) as Hpre.
    { induction needle as [|a needle IHn]; [by destruct after|].
      rewrite append_cons. cbn [String.prefix].
      destruct (ascii_dec a a); [exact IHn | done]. }
    destruct (needle +:+ after); cbn [mentions]; by rewrite Hpre.
  - rewrite append_cons. cbn [mentions]. rewrite IH. apply orb_true_r.
Qed.

(** ** Fields written without quotes *)

Lemma special_digit_char (d : N) : d < 16 → Csv.special (Py.digit_char d) = false.
Proof.
  intros Hd.
  assert (∃ k, d = N.of_nat k ∧ (k < 16)%nat) as (k & -> & Hk)
    by (exists (N.to_nat d); lia).
  do 16 (destruct k as [|k]; [reflexivity|]). lia.
Qed.

Lemma needs_quote_app (s t : string) :
  Csv.needs_quote (s +:+ t) = Csv.needs_quote s || Csv.needs_quote t.
Proof.
  induction s as [|c s IH]; [reflexivity|].
  rewrite append_cons. cbn [Csv.needs_quote]. by rewrite IH, orb_assoc.
Qed.

Lemma quote_field_plain (s : string) :
  Csv.needs_quote s = false → Csv.quote_field s = s.
Proof. unfold Csv.quote_field. by intros ->. Qed.

Section PlainDigits.

Variable base : N.
Hypothesis base_ge : 2 ≤ base.
Hypothesis base_le : base ≤ 16.

Lemma to_base_plain (fuel : nat) :
  ∀ n acc, Csv.needs_quote acc = false →
           Csv.needs_quote (Py.to_base fuel base n acc) = false.
Proof.
  induction fuel as [|fuel IH]; intros n acc Hacc; [exact Hacc|].
  rewrite to_base_step.
  assert (Csv.needs_quote (String (Py.digit_char (n mod base)) acc) = false) as Hacc'.
  { cbn [Csv.needs_quote]. rewrite Hacc, special_digit_char; [reflexivity|].
    pose proof (N.mod_lt n base ltac:(lia)). lia. }
  destruct (n / base =? 0); [exact Hacc' | by apply IH].
Qed.

Lemma fixed_digits_plain (w : nat) :
  ∀ n acc, Csv.needs_quote acc = false →
           Csv.needs_quote (Py.fixed_digits w base n acc) = false.
Proof.
  induction w as [|w IH]; intros n acc Hacc; [exact Hacc|].
  rewrite fixed_digits_step. apply IH.
  cbn [Csv.needs_quote]. rewrite Hacc, special_digit_char; [reflexivity|].
  pose proof (N.mod_lt n base ltac:(lia)). lia.
Qed.

Lemma signed_digits_plain (z : Z) :
  Csv.needs_quote (Py.sign_prefix z +:+ Py.digits base (Z.abs_N z)) = false.
Proof.
  rewrite needs_quote_app. unfold Py.digits. rewrite to_base_plain by reflexivity.
  by destruct z.
Qed.

End PlainDigits.

Lemma format_6f_plain (x : Py.float) : Csv.needs_quote (Py.format_6f x) = false.
Proof.
  unfold Py.format_6f. cbv zeta. rewrite !needs_quote_app. unfold Py.digits.
  rewrite (to_base_plain 10) by (reflexivity || lia).
  rewrite (fixed_digits_plain 10) by (reflexivity || lia).
  by destruct (Py.f_neg x).
Qed.

Lemma data_hex_plain (d : list byte) : Csv.needs_quote (data_hex d) = false.
Proof.
  induction d as [|b d IH]; [reflexivity|].
  rewrite data_hex_cons.
  assert (Csv.needs_quote (Py.format_02X b) = false) as Hb
    by (apply (fixed_digits_plain 16); reflexivity || lia).
  destruct d; [exact Hb|].
  by rewrite !needs_quote_app, Hb, IH.
Qed.

(** The text written for a row. *)
Lemma render_row_line (m : Message) :
  Csv.render_row fieldnames (row_of m) = row_line m.
Proof.
  unfold Csv.render_row, Csv.render_fields. rewrite row_values.
  cbn [fmap list_fmap Csv.field_text Py.join].
  rewrite (quote_field_plain _ (format_6f_plain (timestamp m))).
  rewrite (quote_field_plain ("0x" +:+ Py.format_X (arbitration_id m)))
    by (rewrite needs_quote_app; apply (signed_digits_plain 16); lia).
  rewrite (quote_field_plain (Py.str_bool (is_extended_id m)))
    by (by destruct (is_extended_id m)).
  rewrite (quote_field_plain (Py.str_bool (is_remote_frame m)))
    by (by destruct (is_remote_frame m)).
  rewrite (quote_field_plain (Py.str_bool (is_error_frame m)))
    by (by destruct (is_error_frame m)).
  rewrite (quote_field_plain (Py.str_int (dlc m)))
    by (apply (signed_digits_plain 10); lia).
  rewrite (quote_field_plain _ (data_hex_plain (data m))).
  unfold row_line. by rewrite !append_assoc.
Qed.

(** ** Properties of the conversion *)

Section ConversionProperties.

Variable BLFReader : string → exn + stream.
Variable repr : string → string.

(** C1.  With error frames not requested, the rows written are those of
    the records that are not error frames, in order, and the count of
    skipped error frames reported at the end is the number of error
    frames: each of them gives no row and adds one to the count.  With
    error frames requested, every record, error frames included, gives
    one row, and none is counted as skipped. *)
Theorem error_frames_counted_or_written
    (blf csv : string) (include : bool) (w w1 : world)
    (writable : bool) (bytes : string) (msgs : list Message) :
  fs w !! blf = Some (File true writable bytes) →
  BLFReader bytes = inr (stream_of_list msgs) →
  open_w repr csv w = (Returned tt, w1) →
  let kept :=
    if include then msgs else List.filter (λ m, negb (is_error_frame m)) msgs in
  let errors :=
    if include then [] else List.filter is_error_frame msgs in
  ∃ readable' writable',
    convert_blf_to_csv BLFReader repr blf csv include w
    = (Returned true,
       mkworld
         (<[csv := File readable' writable' (header_line +:+ rows_text kept)]> (fs w))
         (stdout w
          ++ progress_lines 0 (length kept)
          ++ summary csv (N.of_nat (length kept)) (N.of_nat (length errors)))).
Proof.
  intros Hin Hreader Hout kept errors.
  destruct (convert_body_run BLFReader repr blf csv include w w1 _ _ _
              Hin Hreader Hout) as (r & wr & Hbody).
  exists r, wr. rewrite convert_blf_to_csv_run, Hbody, ending_of_list.
  assert (written include (stream_of_list msgs) = kept) as ->.
  { subst kept. destruct include.
    - by rewrite written_include, delivered_of_list.
    - by rewrite written_exclude, delivered_of_list. }
  assert (omitted include (stream_of_list msgs) = errors) as ->.
  { subst errors. destruct include.
    - by rewrite omitted_include.
    - by rewrite omitted_exclude, delivered_of_list. }
  reflexivity.
Qed.

(** C2.  A log holding one standard data frame with arbitration ID
    0x123, DLC 4 and data 01 02 03 04 is converted to the header and
    exactly one data row, whose [arbitration_id], [is_extended_id] and
    [data] values are the strings [0x123], [False] and [01 02 03 04]. *)
Theorem single_standard_message_row
    (blf csv : string) (include : bool) (w w1 : world)
    (writable : bool) (bytes : string) (m : Message) :
  fs w !! blf = Some (File true writable bytes) →
  BLFReader bytes = inr (Yield m Stop) →
  open_w repr csv w = (Returned tt, w1) →
  arbitration_id m = 291%Z →
  is_extended_id m = false →
  is_error_frame m = false →
  dlc m = 4%Z →
  data m = [x01; x02; x03; x04] →
  (∃ readable' writable' out,
     convert_blf_to_csv BLFReader repr blf csv include w
     = (Returned true,
        mkworld
          (<[csv := File readable' writable'
                      (header_line +:+ Csv.render_row fieldnames (row_of m))]> (fs w))
          out))
  ∧ row_of m !! "arbitration_id" = Some (Py.PyStr "0x123")
  ∧ row_of m !! "is_extended_id" = Some (Py.PyStr "False")
  ∧ row_of m !! "dlc" = Some (Py.PyInt 4)
  ∧ row_of m !! "data" = Some (Py.PyStr "01 02 03 04")
  ∧ Csv.render_row fieldnames (row_of m)
    = Py.format_6f (timestamp m)
      +:+ "," +:+ Csv.quote_field
                    (Csv.field_text
                       (match channel m with Some v => v | None => Py.PyStr "N/A" end))
      +:+ ",0x123,False," +:+ Py.str_bool (is_remote_frame m)
      +:+ ",False,4,01 02 03 04" +:+ Csv.lineterminator.
Proof.
  intros Hin Hreader Hout Hid Hext Herr Hdlc Hdata. split; [|split_and!].
  - destruct (convert_body_run BLFReader repr blf csv include w w1 _ _ _
                Hin Hreader Hout) as (r & wr & Hbody).
    exists r, wr. eexists. rewrite convert_blf_to_csv_run, Hbody.
    unfold written, skipped. cbn [delivered ending List.filter].
    rewrite Herr. cbn [andb negb rows_text]. by rewrite append_nil_r.
  - by rewrite row_of_arbitration_id, Hid.
  - by rewrite row_of_is_extended_id, Hext.
  - by rewrite row_of_dlc, Hdlc.
  - by rewrite row_of_data, Hdata.
  - rewrite render_row_line. unfold row_line. rewrite Hid, Hext, Herr, Hdlc, Hdata.
    cbn [Py.str_bool].
    change (Py.format_X 291) with "123". change (Py.str_int 4) with "4".
    change (data_hex [x01; x02; x03; x04]) with "01 02 03 04".
    repeat (rewrite ?append_cons, ?append_nil_l). reflexivity.
Qed.


(** C10.  The [channel] value of a row is the string [N/A] when the
    message object has no [channel] attribute and the value of the
    attribute, unchanged, when it has one; it is the second value of
    the row as written. *)
Theorem channel_column (m : Message) :
  (channel m = None → row_of m !! "channel" = Some (Py.PyStr "N/A"))
  ∧ (∀ v, channel m = Some v → row_of m !! "channel" = Some v)
  ∧ Csv.dict_to_list fieldnames (row_of m) !! 1%nat = row_of m !! "channel".
Proof.
  rewrite row_values, row_of_channel. split; [|split].
  - by intros ->.
  - by intros v ->.
  - reflexivity.
Qed.



(** C6, as the script has it.  The first exception ends the conversion:
    the function prints one line and returns [False], leaving the file
    system as it was when the exception was raised.  The line names the
    BLF path for [FileNotFoundError], is a fixed text for
    [PermissionError], and is [Error during conversion: ] followed by
    the text of the exception otherwise; the position in the input is
    not part of it.  When the exception ends the iteration, the output
    file stays, holding the header and the rows written before it. *)
Theorem first_error_aborts :
  (∀ (blf csv : string) (include : bool) (w w1 : world) (e : exn),
      convert_body BLFReader repr blf csv include w = (Raised e, w1) →
      convert_blf_to_csv BLFReader repr blf csv include w
      = (Returned false, mkworld (fs w1) (stdout w1 ++ [report blf e])))
  ∧ (∀ (blf csv : string) (include : bool) (w w1 : world)
       (writable : bool) (bytes : string) (reader : stream)
       (e : exn) (offset : N),
        fs w !! blf = Some (File true writable bytes) →
        BLFReader bytes = inr reader →
        open_w repr csv w = (Returned tt, w1) →
        ending reader = Some (e, offset) →
        ∃ readable' writable',
          convert_blf_to_csv BLFReader repr blf csv include w
          = (Returned false,
             mkworld
               (<[csv := File readable' writable'
                           (header_line +:+ rows_text (written include reader))]>
                  (fs w))
               (stdout w
                ++ progress_lines 0 (length (written include reader))
                ++ [report blf e]))).
Proof.
  split.
  - intros blf csv include w w1 e Hbody.
    by rewrite convert_blf_to_csv_run, Hbody.
  - intros blf csv include w w1 writable bytes reader e offset
      Hin Hreader Hout Hend.
    destruct (convert_body_run BLFReader repr blf csv include w w1 _ _ _
                Hin Hreader Hout) as (r & wr & Hbody).
    exists r, wr. rewrite convert_blf_to_csv_run, Hbody, Hend.
    cbn [fs stdout]. by rewrite app_nil_r, <- app_assoc.
Qed.


(** C7.  When the input argument names no existing file, [main] prints
    one line that names the argument, returns the exit status 1, and
    leaves the file system unchanged. *)
Theorem missing_input_reported (a : args) (w : world) :
  fs w !! Pathlib.str (Pathlib.Path (input_file a)) = None →
  ∃ line,
    main BLFReader repr a w
    = (Returned 1%Z, mkworld (fs w) (stdout w ++ [line]))
    ∧ mentions (input_file a) line = true
    ∧ 1%Z ≠ 0%Z.
Proof.
  intros Hmissing. eexists. split; [by apply main_missing|].
  split; [apply mentions_app | done].
Qed.


End ConversionProperties.

(** ** Concrete runs *)

Example one_error_frame_disabled :
  convert_blf_to_csv (Sample.reader_of (Yield Sample.error_frame Stop)) Sample.repr
    "in.blf" "out.csv" false Sample.world0
  = (Returned true,
     mkworld (Runs.fs_with_output header_line) (Runs.completed "0" "1")).
Proof. vm_compute. reflexivity. Qed.

Example one_error_frame_enabled :
  convert_blf_to_csv (Sample.reader_of (Yield Sample.error_frame Stop)) Sample.repr
    "in.blf" "out.csv" true Sample.world0
  = (Returned true,
     mkworld (Runs.fs_with_output (header_line +:+ Runs.row_error_frame))
       (Runs.completed "1" EmptyString)).
Proof. vm_compute. reflexivity. Qed.

Example one_standard_message :
  convert_blf_to_csv (Sample.reader_of (Yield Sample.can_0x123 Stop)) Sample.repr
    "in.blf" "out.csv" false Sample.world0
  = (Returned true,
     mkworld (Runs.fs_with_output (header_line +:+ Runs.row_0x123))
       (Runs.completed "1" EmptyString)).
Proof. vm_compute. reflexivity. Qed.

(** Lowercase letters are not digits of the rendering. *)
Example lowercase_is_not_read : number_in 16 "1f" = None ∧ number_in 16 "1F" = Some 31.
Proof. split; reflexivity. Qed.

Example missing_input_directory :
  convert_blf_to_csv (Sample.reader_of Stop) Sample.repr
    "logs/in.blf" "out.csv" false Sample.world0
  = (Returned false,
     mkworld (fs Sample.world0) ["Error: BLF file 'logs/in.blf' not found."]).
Proof. vm_compute. reflexivity. Qed.

(** A missing output directory is reported with the name of the input. *)
Example missing_output_directory :
  convert_blf_to_csv (Sample.reader_of Stop) Sample.repr
    "in.blf" "out/in.csv" false Sample.world0
  = (Returned false,
     mkworld (fs Sample.world0) ["Error: BLF file 'in.blf' not found."]).
Proof. vm_compute. reflexivity. Qed.

(** ** Instances of the properties *)

Lemma error_frames_counted_or_written_witness :
  ∃ readable' writable',
    convert_blf_to_csv (Sample.reader_of (stream_of_list [Sample.error_frame]))
      Sample.repr "in.blf" "out.csv" false Sample.world0
    = (Returned true,
       mkworld (<["out.csv" := File readable' writable' header_line]> (fs Sample.world0))
         [ newline +:+ "Conversion completed successfully!";
           "Messages processed: 0";
           "Error frames skipped: 1";
           "Output file: out.csv" ]).
Proof.
  exact (error_frames_counted_or_written
           (Sample.reader_of (stream_of_list [Sample.error_frame])) Sample.repr
           "in.blf" "out.csv" false Sample.world0 Runs.world1 true "LOGG"
           [Sample.error_frame] eq_refl eq_refl eq_refl).
Defined.

Lemma single_standard_message_row_witness :
  (∃ readable' writable' out,
     convert_blf_to_csv (Sample.reader_of (Yield Sample.can_0x123 Stop)) Sample.repr
       "in.blf" "out.csv" false Sample.world0
     = (Returned true,
        mkworld
          (<["out.csv" := File readable' writable'
                            (header_line
                             +:+ Csv.render_row fieldnames (row_of Sample.can_0x123))]>
             (fs Sample.world0))
          out))
  ∧ row_of Sample.can_0x123 !! "arbitration_id" = Some (Py.PyStr "0x123")
  ∧ row_of Sample.can_0x123 !! "is_extended_id" = Some (Py.PyStr "False")
  ∧ row_of Sample.can_0x123 !! "dlc" = Some (Py.PyInt 4)
  ∧ row_of Sample.can_0x123 !! "data" = Some (Py.PyStr "01 02 03 04")
  ∧ Csv.render_row fieldnames (row_of Sample.can_0x123) = Runs.row_0x123.
Proof.
  exact (single_standard_message_row
           (Sample.reader_of (Yield Sample.can_0x123 Stop)) Sample.repr
           "in.blf" "out.csv" false Sample.world0 Runs.world1 true "LOGG"
           Sample.can_0x123 eq_refl eq_refl eq_refl eq_refl eq_refl eq_refl
           eq_refl eq_refl).
Defined.






(** The report of an exception raised at byte 200 of the input names
    neither the position nor the class of the exception. *)
Lemma report_without_kind_and_offset :
  ending Runs.broken_log = Some (Sample.bad_object, 200)
  ∧ convert_blf_to_csv (Sample.reader_of Runs.broken_log) Sample.repr
      "in.blf" "out.csv" false Sample.world0
    = (Returned false,
       mkworld (Runs.fs_with_output (header_line +:+ Runs.row_0x123))
         ["Error during conversion: bad"])
  ∧ mentions "200" "Error during conversion: bad" = false
  ∧ mentions "ValueError" "Error during conversion: bad" = false.
Proof.
  split; [reflexivity|]. split; [vm_compute; reflexivity|].
  split; reflexivity.
Qed.

Lemma first_error_aborts_witness :
  convert_blf_to_csv (Sample.reader_of Stop) Sample.repr
    "absent.blf" "out.csv" false Sample.world0
  = (Returned false,
     mkworld (fs Sample.world0)
       (stdout Sample.world0
        ++ [report "absent.blf"
              (os_error Sample.repr FileNotFoundError 2
                 "No such file or directory" "absent.blf")]))
  ∧ ∃ readable' writable',
      convert_blf_to_csv (Sample.reader_of Runs.broken_log) Sample.repr
        "in.blf" "out.csv" false Sample.world0
      = (Returned false,
         mkworld
           (<["out.csv" := File readable' writable'
                             (header_line +:+ rows_text (written false Runs.broken_log))]>
              (fs Sample.world0))
           (stdout Sample.world0
            ++ progress_lines 0 (length (written false Runs.broken_log))
            ++ [report "in.blf" Sample.bad_object])).
Proof.
  split.
  - exact (proj1 (first_error_aborts (Sample.reader_of Stop) Sample.repr)
             "absent.blf" "out.csv" false Sample.world0 Sample.world0 _ eq_refl).
  - exact (proj2 (first_error_aborts (Sample.reader_of Runs.broken_log) Sample.repr)
             "in.blf" "out.csv" false Sample.world0 Runs.world1 true "LOGG"
             Runs.broken_log Sample.bad_object 200 eq_refl eq_refl eq_refl eq_refl).
Defined.

Lemma missing_input_reported_witness :
  ∃ line,
    main (Sample.reader_of Stop) Sample.repr (mkargs "absent.blf" None false)
      Sample.world0
    = (Returned 1%Z, mkworld (fs Sample.world0) (stdout Sample.world0 ++ [line]))
    ∧ mentions "absent.blf" line = true
    ∧ 1%Z ≠ 0%Z.
Proof.
  exact (missing_input_reported (Sample.reader_of Stop) Sample.repr
           (mkargs "absent.blf" None false) Sample.world0 eq_refl).
Defined.



Lemma channel_column_witness :
  row_of Sample.no_channel !! "channel" = Some (Py.PyStr "N/A")
  ∧ row_of Sample.can_0x123 !! "channel" = Some (Py.PyInt 0).
Proof.
  split.
  - exact (proj1 (channel_column Sample.no_channel) eq_refl).
  - exact (proj1 (proj2 (channel_column Sample.can_0x123)) (Py.PyInt 0) eq_refl).
Defined.

(** ** Every way the conversion can go *)

Section ConversionCases.

Variable BLFReader : string → exn + stream.
Variable repr : string → string.

(** Opening the input changes nothing; it gives the bytes of a readable
    file or raises. *)
Lemma open_rb_cases (blf : string) (w : world) :
  (∃ writable bytes,
      fs w !! blf = Some (File true writable bytes)
      ∧ open_rb repr blf w = (Returned bytes, w))
  ∨ (∃ e, open_rb repr blf w = (Raised e, w)).
Proof.
  unfold open_rb, bind, get_fs, ret, raise.
  destruct (fs w !! blf) as [[?|[] ? ?]|]; eauto.
Qed.

Lemma open_w_cases (csv : string) (w : world) :
  (∃ readable,
      open_w repr csv w
      = (Returned tt,
         mkworld (<[csv := File readable true EmptyString]> (fs w)) (stdout w)))
  ∨ (∃ e, open_w repr csv w = (Raised e, w)).
Proof.
  unfold open_w, bind, get_fs, put_fs, raise.
  repeat (case_match; eauto).
Qed.

(** The body of the [try] statement fails at one of its three opening
    steps, leaving the world as it was, or goes on to the loop with both
    files open. *)
Lemma convert_body_cases (blf csv : string) (include : bool) (w : world) :
  (∃ e, open_rb repr blf w = (Raised e, w)
        ∧ convert_body BLFReader repr blf csv include w = (Raised e, w))
  ∨ (∃ writable bytes e,
        fs w !! blf = Some (File true writable bytes)
        ∧ BLFReader bytes = inl e
        ∧ convert_body BLFReader repr blf csv include w = (Raised e, w))
  ∨ (∃ writable bytes reader e,
        fs w !! blf = Some (File true writable bytes)
        ∧ BLFReader bytes = inr reader
        ∧ open_w repr csv w = (Raised e, w)
        ∧ convert_body BLFReader repr blf csv include w = (Raised e, w))
  ∨ (∃ writable bytes reader readable',
        fs w !! blf = Some (File true writable bytes)
        ∧ BLFReader bytes = inr reader
        ∧ open_w repr csv w
          = (Returned tt,
             mkworld (<[csv := File readable' true EmptyString]> (fs w)) (stdout w))).
Proof.
  destruct (open_rb_cases blf w) as [(bw & bytes & Hin & Hopen)|(e & Hopen)].
  - destruct (BLFReader bytes) as [e|reader] eqn:Hreader.
    + right; left. exists bw, bytes, e. split; [done|]. split; [done|].
      unfold convert_body. unfold bind at 1. rewrite Hopen.
      unfold bind at 1, new_BLFReader. by rewrite Hreader.
    + destruct (open_w_cases csv w) as [(r & Hout)|(e & Hout)].
      * do 3 right. by exists bw, bytes, reader, r.
      * right; right; left. exists bw, bytes, reader, e.
        split; [done|]. split; [done|]. split; [done|].
        unfold convert_body. unfold bind at 1. rewrite Hopen.
        unfold bind at 1, new_BLFReader. rewrite Hreader. unfold ret at 1.
        unfold bind at 1. by rewrite Hout.
  - left. exists e. split; [done|].
    unfold convert_body. unfold bind at 1. by rewrite Hopen.
Qed.

(** [main], once the paths are known: the announcement, then the
    conversion, whose result decides the value returned. *)
Lemma main_convert_run (input_path output_path : Pathlib.path) (include : bool)
    (w : world) :
  main_convert BLFReader repr input_path output_path include w
  = match convert_blf_to_csv BLFReader repr (Pathlib.str input_path)
            (Pathlib.str output_path) include
            (mkworld (fs w) (stdout w ++ announcement input_path output_path include))
    with
    | (Returned success, w') => (Returned (if success then 0%Z else 1%Z), w')
    | (Raised e, w') => (Raised e, w')
    end.
Proof.
  unfold main_convert, announcement.
  unfold bind at 1 2 3 4 5, print. cbn [fs stdout].
  rewrite <- !app_assoc. cbn [app].
  by destruct (convert_blf_to_csv _ _ _ _ _ _) as [[[]|e] w'].
Qed.

(** The body of the [try] statement with both files open, the node of
    the output being the one [open] left. *)
Lemma convert_body_open (blf csv : string) (include : bool) (w : world)
    (writable : bool) (bytes : string) (reader : stream) (readable' writable' : bool) :
  fs w !! blf = Some (File true writable bytes) →
  BLFReader bytes = inr reader →
  open_w repr csv w
  = (Returned tt,
     mkworld (<[csv := File readable' writable' EmptyString]> (fs w)) (stdout w)) →
  convert_body BLFReader repr blf csv include w
  = (match ending reader with
     | None => Returned tt
     | Some (e, _) => Raised e
     end,
     mkworld
       (<[csv := File readable' writable'
                   (header_line +:+ rows_text (written include reader))]> (fs w))
       (stdout w
        ++ progress_lines 0 (length (written include reader))
        ++ match ending reader with
           | None =>
               summary csv (N.of_nat (length (written include reader)))
                           (N.of_nat (length (omitted include reader)))
           | Some _ => []
           end)).
Proof.
  intros Hin Hreader Hout.
  unfold convert_body. unfold bind at 1. rewrite (open_rb_run repr _ _ _ _ Hin).
  unfold bind at 1, new_BLFReader. rewrite Hreader. unfold ret at 1.
  unfold bind at 1. rewrite Hout.
  unfold bind at 1.
  rewrite (write_open csv _ _ readable' writable' EmptyString)
    by apply lookup_insert_eq.
  rewrite header_line_rendered, append_nil_l.
  unfold bind at 1.
  erewrite process_messages_run by (cbn; apply lookup_insert_eq).
  cbn [fs stdout]. rewrite !insert_insert_eq.
  destruct (ending reader) as [[e offset]|].
  - by rewrite app_nil_r.
  - rewrite !N.add_0_l. unfold summary, bind, print, ret. cbn [fst snd fs stdout].
    destruct (0 <? N.of_nat (length (omitted include reader)));
      cbn [fs stdout]; by rewrite <- !app_assoc.
Qed.

(** The conversion as a whole: an opening step fails and nothing
    changes but the report printed, or both files are opened and the
    output holds the header and the rows written until the iteration
    ended. *)
Lemma convert_cases (blf csv : string) (include : bool) (w : world) :
  (∃ e,
      convert_body BLFReader repr blf csv include w = (Raised e, w)
      ∧ convert_blf_to_csv BLFReader repr blf csv include w
        = (Returned false, mkworld (fs w) (stdout w ++ [report blf e])))
  ∨ (∃ writable bytes reader readable',
        fs w !! blf = Some (File true writable bytes)
        ∧ BLFReader bytes = inr reader
        ∧ open_w repr csv w
          = (Returned tt,
             mkworld (<[csv := File readable' true EmptyString]> (fs w)) (stdout w))
        ∧ convert_blf_to_csv BLFReader repr blf csv include w
          = (Returned (match ending reader with None => true | Some _ => false end),
             mkworld
               (<[csv := File readable' true
                           (header_line +:+ rows_text (written include reader))]>
                  (fs w))
               (stdout w
                ++ progress_lines 0 (length (written include reader))
                ++ match ending reader with
                   | None =>
                       summary csv (N.of_nat (length (written include reader)))
                                   (N.of_nat (length (omitted include reader)))
                   | Some (e, _) => [report blf e]
                   end))).
Proof.
  destruct (convert_body_cases blf csv include w)
    as [(e & _ & Hbody)|[(? & ? & e & _ & _ & Hbody)
        |[(? & ? & ? & e & _ & _ & _ & Hbody)|(bw & bytes & reader & r & Hin & Hreader & Hout)]]].
  1-3: left; exists e; split; [done|]; by rewrite convert_blf_to_csv_run, Hbody.
  right. exists bw, bytes, reader, r. split; [done|]. split; [done|]. split; [done|].
  rewrite convert_blf_to_csv_run,
    (convert_body_open blf csv include w _ _ _ _ _ Hin Hreader Hout).
  destruct (ending reader) as [[e offset]|]; cbn [fs stdout];
    by rewrite ?app_nil_r, <- ?app_assoc.
Qed.

(** A failure of the third opening step. *)
Lemma failed_output_opening (blf csv : string) (include : bool) (w : world)
    (writable : bool) (bytes : string) (reader : stream) (e : exn) :
  fs w !! blf = Some (File true writable bytes) →
  BLFReader bytes = inr reader →
  open_w repr csv w = (Raised e, w) →
  convert_blf_to_csv BLFReader repr blf csv include w
  = (Returned false, mkworld (fs w) (stdout w ++ [report blf e])).
Proof.
  intros Hin Hreader Hout.
  rewrite convert_blf_to_csv_run. unfold convert_body. unfold bind at 1.
  rewrite (open_rb_run repr _ _ _ _ Hin).
  unfold bind at 1, new_BLFReader. rewrite Hreader. unfold ret at 1.
  unfold bind at 1. by rewrite Hout.
Qed.

End ConversionCases.

(** ** Further properties of the conversion *)

(** A path is its parent components followed by its name. *)
Lemma path_rebuild (p : Pathlib.path) :
  Pathlib.name p ≠ EmptyString →
  Pathlib.mkpath (Pathlib.root p) (removelast (Pathlib.parts p) ++ [Pathlib.name p]) = p.
Proof.
  destruct p as [r ps]. unfold Pathlib.name. cbn [Pathlib.root Pathlib.parts].
  intros Hname. f_equal. symmetry. apply app_removelast_last.
  intros ->. by apply Hname.
Qed.

Section FurtherProperties.

Variable BLFReader : string → exn + stream.
Variable repr : string → string.

(** X1.  When the input cannot be opened, when the reader rejects it, or
    when the output cannot be opened, the conversion returns [False]
    after one report line and the file system is exactly as before: no
    output file is created, truncated or otherwise touched. *)
Theorem failed_opening_changes_nothing
    (blf csv : string) (include : bool) (w : world) (e : exn) :
  open_rb repr blf w = (Raised e, w)
  ∨ (∃ writable bytes,
        fs w !! blf = Some (File true writable bytes) ∧ BLFReader bytes = inl e)
  ∨ (∃ writable bytes reader,
        fs w !! blf = Some (File true writable bytes)
        ∧ BLFReader bytes = inr reader
        ∧ open_w repr csv w = (Raised e, w)) →
  convert_blf_to_csv BLFReader repr blf csv include w
  = (Returned false, mkworld (fs w) (stdout w ++ [report blf e])).
Proof.
  intros Hfail.
  assert (convert_body BLFReader repr blf csv include w = (Raised e, w)) as Hbody.
  { unfold convert_body. unfold bind at 1.
    destruct Hfail as [Hopen|[(bw & bytes & Hin & Hreader)
                              |(bw & bytes & reader & Hin & Hreader & Hout)]].
    - by rewrite Hopen.
    - rewrite (open_rb_run repr _ _ _ _ Hin).
      unfold bind at 1, new_BLFReader. by rewrite Hreader.
    - rewrite (open_rb_run repr _ _ _ _ Hin).
      unfold bind at 1, new_BLFReader. rewrite Hreader. unfold ret at 1.
      unfold bind at 1. by rewrite Hout. }
  by rewrite convert_blf_to_csv_run, Hbody.
Qed.

(** X2.  The conversion changes no path of the file system other than
    the output path. *)
Theorem only_output_path_changes
    (blf csv : string) (include : bool) (w : world) (p : string) :
  p ≠ csv →
  fs (snd (convert_blf_to_csv BLFReader repr blf csv include w)) !! p = fs w !! p.
Proof.
  intros Hp.
  destruct (convert_cases BLFReader repr blf csv include w)
    as [(e & _ & ->)|(? & ? & ? & ? & _ & _ & _ & ->)]; cbn [snd fs].
  - reflexivity.
  - by rewrite lookup_insert_ne.
Qed.

(** X3.  When the input opens and the reader accepts it but the output
    path lies in a directory that does not exist, the [FileNotFoundError]
    of the output is caught by the clause written for the input: the
    report says that the BLF file, named by the input path, was not
    found. *)
Theorem missing_output_directory_blamed_on_input
    (blf csv : string) (include : bool) (w : world)
    (writable : bool) (bytes : string) (reader : stream) :
  fs w !! blf = Some (File true writable bytes) →
  BLFReader bytes = inr reader →
  fs w !! csv = None →
  Pathlib.basename csv ≠ EmptyString →
  fs w !! Pathlib.dirname csv = None →
  convert_blf_to_csv BLFReader repr blf csv include w
  = (Returned false,
     mkworld (fs w) (stdout w ++ ["Error: BLF file '" +:+ blf +:+ "' not found."])).
Proof.
  intros Hin Hreader Hcsv Hbase Hdir.
  assert (csv ≠ EmptyString) as Hne by (intros ->; by apply Hbase).
  set (e := os_error repr FileNotFoundError 2 "No such file or directory" csv).
  rewrite (failed_output_opening BLFReader repr blf csv include w _ _ _ e Hin Hreader);
    [reflexivity|].
  unfold open_w, bind at 1, get_fs. rewrite Hcsv, Hdir.
  destruct csv as [|c csv']; [done|]. cbn [Pathlib.nonempty negb].
  destruct (Pathlib.basename (String c csv')); [done | reflexivity].
Qed.

(** X4.  Running a completed conversion again, on the world the first
    run left and with an output path other than the input path, completes
    again and leaves the file system as the first run left it: the output
    is rewritten, not appended to. *)
Theorem rerun_rewrites_the_output
    (blf csv : string) (include : bool) (w w' : world) :
  blf ≠ csv →
  convert_blf_to_csv BLFReader repr blf csv include w = (Returned true, w') →
  ∃ w'',
    convert_blf_to_csv BLFReader repr blf csv include w' = (Returned true, w'')
    ∧ fs w'' = fs w'.
Proof.
  intros Hne Hrun.
  destruct (convert_cases BLFReader repr blf csv include w)
    as [(e & _ & Hfail)|(bw & bytes & reader & r & Hin & Hreader & Hout & Hdone)].
  { rewrite Hfail in Hrun. discriminate. }
  rewrite Hdone in Hrun. injection Hrun as Hend <-.
  destruct (ending reader) as [[e offset]|] eqn:Hending; [discriminate|].
  set (content := header_line +:+ rows_text (written include reader)).
  set (out := (stdout w ++ _)%list).
  set (w1 := mkworld (<[csv := File r true content]> (fs w)) out).
  assert (fs w1 !! blf = Some (File true bw bytes)) as Hin1
    by (subst w1; cbn [fs]; by rewrite lookup_insert_ne).
  assert (open_w repr csv w1
          = (Returned tt,
             mkworld (<[csv := File r true EmptyString]> (fs w1)) (stdout w1)))
    as Hout1.
  { unfold open_w, bind, get_fs, put_fs. subst w1. cbn [fs stdout].
    by rewrite lookup_insert_eq. }
  eexists. split.
  - rewrite convert_blf_to_csv_run,
      (convert_body_open BLFReader repr blf csv include w1 _ _ _ _ _
         Hin1 Hreader Hout1), Hending.
    reflexivity.
  - subst w1. cbn [fs]. by rewrite insert_insert_eq.
Qed.


(** X6.  With the output argument absent or empty and an existing input
    path that has no final component (the root, or the current
    directory), [main] raises [ValueError] before it prints or writes
    anything, and the script ends with exit status 1. *)
Theorem main_raises_without_name (a : args) (w : world) :
  is_Some (fs w !! Pathlib.str (Pathlib.Path (input_file a))) →
  truthy (output_file a) = false →
  Pathlib.parts (Pathlib.Path (input_file a)) = [] →
  (∃ text,
      main BLFReader repr a w
      = (Raised (mkexn (OtherException "ValueError") text), w))
  ∧ exit_status BLFReader repr a w = 1%Z.
Proof.
  intros Hfound Htruthy Hparts.
  assert (Pathlib.with_suffix (Pathlib.Path (input_file a)) ".csv" = None) as Hnone.
  { unfold Pathlib.with_suffix, Pathlib.name. by rewrite Hparts. }
  unfold exit_status. rewrite (main_found _ _ _ _ Hfound), Htruthy, Hnone.
  split; [by eexists | reflexivity].
Qed.

(** X7.  With the output argument absent or empty and an input whose
    final component already ends in [.csv], the default output path is
    the input path itself: the conversion is run with the same path for
    input and output, and afterwards that path holds what it held before
    (when an opening step failed) or text that starts with the header
    line (when the conversion opened it for writing). *)
Theorem csv_named_input_is_its_own_output (a : args) (w : world) (stem : string) :
  is_Some (fs w !! Pathlib.str (Pathlib.Path (input_file a))) →
  truthy (output_file a) = false →
  Pathlib.name (Pathlib.Path (input_file a)) = stem +:+ ".csv" →
  stem ≠ EmptyString →
  let input_path := Pathlib.Path (input_file a) in
  main BLFReader repr a w
  = main_convert BLFReader repr input_path input_path (include_errors a) w
  ∧ (fs (snd (main BLFReader repr a w)) !! Pathlib.str input_path
     = fs w !! Pathlib.str input_path
     ∨ ∃ readable rest,
         fs (snd (main BLFReader repr a w)) !! Pathlib.str input_path
         = Some (File readable true (header_line +:+ rest))).
Proof.
  intros Hfound Htruthy Hname Hstem. cbv zeta.
  set (input_path := Pathlib.Path (input_file a)) in *.
  assert (Pathlib.with_suffix input_path ".csv" = Some input_path) as Hsame.
  { rewrite (with_suffix_ext input_path stem "csv" ".csv" Hname Hstem)
      by (discriminate || reflexivity).
    f_equal. change (stem +:+ ".csv") with (stem +:+ String "." "csv").
    rewrite <- Hname. apply path_rebuild.
    rewrite Hname. by destruct stem. }
  assert (main BLFReader repr a w
          = main_convert BLFReader repr input_path input_path (include_errors a) w)
    as Hmain.
  { rewrite (main_found _ _ _ _ Hfound), Htruthy. fold input_path. by rewrite Hsame. }
  split; [exact Hmain|].
  rewrite Hmain, main_convert_run.
  set (wa := mkworld (fs w) _).
  destruct (convert_cases BLFReader repr (Pathlib.str input_path)
              (Pathlib.str input_path) (include_errors a) wa)
    as [(e & _ & ->)|(? & ? & reader & r & _ & _ & _ & ->)]; cbn [snd fs].
  - by left.
  - right. exists r. eexists. apply lookup_insert_eq.
Qed.

End FurtherProperties.

(** ** Progress lines and counters *)

Lemma div_succ_10000 (n : N) :
  (n + 1) / 10000 = n / 10000 + (if (n + 1) mod 10000 =? 0 then 1 else 0).
Proof.
  pose proof (N.Div0.div_mod n 10000) as Hn.
  pose proof (N.Div0.div_mod (n + 1) 10000) as Hn1.
  pose proof (N.mod_lt n 10000 ltac:(lia)) as Hr.
  pose proof (N.mod_lt (n + 1) 10000 ltac:(lia)) as Hr1.
  destruct ((n + 1) mod 10000 =? 0) eqn:Hmod;
    [apply N.eqb_eq in Hmod | apply N.eqb_neq in Hmod];
    generalize dependent ((n + 1) mod 10000);
    generalize dependent ((n + 1) / 10000);
    generalize dependent (n mod 10000);
    generalize dependent (n / 10000); intros; lia.
Qed.

Lemma progress_lines_length (message_count : N) (k : nat) :
  N.of_nat (length (progress_lines message_count k))
  = (message_count + N.of_nat k) / 10000 - message_count / 10000.
Proof.
  revert message_count. induction k as [|k IH]; intros message_count.
  - cbn [progress_lines length N.of_nat]. rewrite N.add_0_r. lia.
  - cbn [progress_lines]. rewrite length_app, Nat2N.inj_add, IH.
    replace (message_count + N.of_nat (S k)) with (message_count + 1 + N.of_nat k) by lia.
    pose proof (div_succ_10000 message_count) as Hstep.
    assert (message_count + 1 ≤ message_count + 1 + N.of_nat k) as Hle by lia.
    apply (N.Div0.div_le_mono _ _ 10000) in Hle.
    destruct ((message_count + 1) mod 10000 =? 0); cbn [length N.of_nat] in *; lia.
Qed.

Lemma progress_lines_In (message_count : N) (k : nat) (line : string) :
  In line (progress_lines message_count k)
  ↔ ∃ c, message_count < c ∧ c ≤ message_count + N.of_nat k
         ∧ c mod 10000 = 0 ∧ line = progress_line c.
Proof.
  revert message_count. induction k as [|k IH]; intros message_count.
  - cbn [progress_lines In]. split; [done|]. intros (c & ? & ? & _). lia.
  - cbn [progress_lines]. rewrite in_app_iff, IH. split.
    + intros [Hhere|(c & ? & ? & ? & ?)].
      * destruct ((message_count + 1) mod 10000 =? 0) eqn:Hmod; [|done].
        destruct Hhere as [<-|[]]. apply N.eqb_eq in Hmod.
        exists (message_count + 1). repeat split; lia.
      * exists c. repeat split; [lia | lia | done | done].
    + intros (c & Hlo & Hhi & Hmod & ->).
      destruct (decide (c = message_count + 1)) as [->|Hne].
      * left. apply N.eqb_eq in Hmod. rewrite Hmod. by left.
      * right. exists c. repeat split; [lia | lia | done].
Qed.

Lemma written_omitted_length (include : bool) (s : stream) :
  (length (written include s) + length (omitted include s))%nat
  = length (delivered s).
Proof.
  unfold written, omitted. induction (delivered s) as [|m l IH]; [reflexivity|].
  cbn [List.filter]. destruct (skipped include m); cbn [negb length]; lia.
Qed.

Section CountersAndProgress.

Variable BLFReader : string → exn + stream.
Variable repr : string → string.

(** X8.  While rows are written, one line [Processed c messages...] is
    printed for each multiple [c] of 10000 reached by the number of rows
    written, and no other: a conversion that writes [n] rows prints
    [n / 10000] such lines, between what was printed before and the
    summary or the error report.  Skipped error frames do not count. *)
Theorem progress_every_10000_rows
    (blf csv : string) (include : bool) (w w1 : world)
    (writable : bool) (bytes : string) (reader : stream) :
  fs w !! blf = Some (File true writable bytes) →
  BLFReader bytes = inr reader →
  open_w repr csv w = (Returned tt, w1) →
  let n := N.of_nat (length (written include reader)) in
  ∃ result w' lines,
    convert_blf_to_csv BLFReader repr blf csv include w = (Returned result, w')
    ∧ stdout w'
      = (stdout w ++ lines
         ++ match ending reader with
            | None => summary csv n (N.of_nat (length (omitted include reader)))
            | Some (e, _) => [report blf e]
            end)%list
    ∧ N.of_nat (length lines) = n / 10000
    ∧ ∀ line,
        In line lines
        ↔ ∃ c, 0 < c ∧ c ≤ n ∧ c mod 10000 = 0
               ∧ line = "Processed " +:+ Py.str_int (Z.of_N c) +:+ " messages...".
Proof.
  intros Hin Hreader Hout n.
  destruct (convert_body_run BLFReader repr blf csv include w w1 _ _ _
              Hin Hreader Hout) as (r & wr & Hbody).
  rewrite convert_blf_to_csv_run, Hbody.
  destruct (ending reader) as [[e offset]|];
    eexists _, _, (progress_lines 0 (length (written include reader)));
    (split; [reflexivity|]);
    (split; [cbn [stdout]; by rewrite ?app_nil_r, <- ?app_assoc|]);
    (split; [|intros line; rewrite progress_lines_In; subst n; by rewrite N.add_0_l]).
  all: rewrite progress_lines_length, N.add_0_l; subst n;
    change (0 / 10000) with 0; apply N.sub_0_r.
Qed.

(** X9.  When the iteration ends without exception, every delivered
    message is accounted for exactly once: the number of rows written
    plus the number of error frames skipped is the number of messages
    delivered; and when error frames are requested none is skipped. *)
Theorem counters_account_for_every_message
    (csv : string) (include : bool) (reader : stream) (w : world)
    (readable writable : bool) (content : string) :
  fs w !! csv = Some (File readable writable content) →
  ending reader = None →
  ∃ message_count error_count w',
    process_messages csv include reader 0 0 w
    = (Returned (message_count, error_count), w')
    ∧ message_count + error_count = N.of_nat (length (delivered reader))
    ∧ message_count = N.of_nat (length (written include reader))
    ∧ (include = true → error_count = 0).
Proof.
  intros Hopen Hend.
  rewrite (process_messages_run csv include reader 0 0 w _ _ _ Hopen), Hend.
  eexists _, _, _. split; [reflexivity|].
  pose proof (written_omitted_length include reader) as Hsum.
  split; [lia|]. split; [lia|].
  intros ->. by rewrite omitted_include.
Qed.

End CountersAndProgress.

(** ** Reading a row back *)

Lemma not_special_not_comma (c : ascii) : Csv.special c = false → Ascii.eqb c "," = false.
Proof.
  unfold Csv.special, Csv.delimiter. intros H.
  by repeat (apply orb_false_iff in H as [H _]).
Qed.

Lemma split_plain (s : string) :
  Csv.needs_quote s = false → Pathlib.split "," s = [s].
Proof.
  induction s as [|c s IH]; [reflexivity|]. cbn [Csv.needs_quote Pathlib.split].
  intros [Hc Hs]%orb_false_iff. by rewrite (not_special_not_comma _ Hc), (IH Hs).
Qed.

Lemma split_plain_cons (s rest : string) :
  Csv.needs_quote s = false →
  Pathlib.split "," (s +:+ String "," rest) = s :: Pathlib.split "," rest.
Proof.
  induction s as [|c s IH]; [reflexivity|].
  rewrite append_cons. cbn [Csv.needs_quote Pathlib.split].
  intros [Hc Hs]%orb_false_iff. by rewrite (not_special_not_comma _ Hc), (IH Hs).
Qed.

Lemma channel_text_plain (m : Message) :
  channel_plain m = true →
  Csv.needs_quote
    (Csv.field_text (match channel m with Some v => v | None => Py.PyStr "N/A" end))
  = false.
Proof.
  unfold channel_plain. destruct (channel m) as [[|z|s]|]; cbn [Csv.field_text].
  - reflexivity.
  - intros _. apply (signed_digits_plain 10); lia.
  - by intros ->%negb_true_iff.
  - reflexivity.
Qed.

(** X10.  Unless the channel of the message is a string that contains a
    comma, a quote or a line break, the line written for the message is
    its eight values joined by commas and ended by the line terminator,
    with no quoting: splitting the line at its commas gives back the
    eight values, in the order of the columns. *)
Theorem row_splits_into_its_values (m : Message) :
  channel_plain m = true →
  ∃ body,
    Csv.render_row fieldnames (row_of m) = body +:+ Csv.lineterminator
    ∧ split_commas body = row_texts m
    ∧ row_texts m
      = [ Py.format_6f (timestamp m);
          Csv.field_text (match channel m with Some v => v | None => Py.PyStr "N/A" end);
          "0x" +:+ Py.format_X (arbitration_id m);
          Py.str_bool (is_extended_id m);
          Py.str_bool (is_remote_frame m);
          Py.str_bool (is_error_frame m);
          Py.str_int (dlc m);
          data_hex (data m) ].
Proof.
  intros Hplain. apply channel_text_plain in Hplain.
  assert (row_texts m
          = [ Py.format_6f (timestamp m);
              Csv.field_text
                (match channel m with Some v => v | None => Py.PyStr "N/A" end);
              "0x" +:+ Py.format_X (arbitration_id m);
              Py.str_bool (is_extended_id m);
              Py.str_bool (is_remote_frame m);
              Py.str_bool (is_error_frame m);
              Py.str_int (dlc m);
              data_hex (data m) ]) as Htexts
    by (unfold row_texts; by rewrite row_values).
  exists (Py.format_6f (timestamp m)
          +:+ String ","
                (Csv.field_text
                   (match channel m with Some v => v | None => Py.PyStr "N/A" end)
          +:+ String "," (("0x" +:+ Py.format_X (arbitration_id m))
          +:+ String "," (Py.str_bool (is_extended_id m)
          +:+ String "," (Py.str_bool (is_remote_frame m)
          +:+ String "," (Py.str_bool (is_error_frame m)
          +:+ String "," (Py.str_int (dlc m)
          +:+ String "," (data_hex (data m))))))))).
  split; [|split; [|exact Htexts]].
  - rewrite render_row_line. unfold row_line.
    rewrite (quote_field_plain _ Hplain).
    repeat (rewrite ?append_assoc, ?append_cons, ?append_nil_l). reflexivity.
  - rewrite Htexts. unfold split_commas.
    rewrite split_plain_cons by apply format_6f_plain.
    rewrite split_plain_cons by exact Hplain.
    rewrite split_plain_cons
      by (rewrite needs_quote_app; apply (signed_digits_plain 16); lia).
    rewrite split_plain_cons by (by destruct (is_extended_id m)).
    rewrite split_plain_cons by (by destruct (is_remote_frame m)).
    rewrite split_plain_cons by (by destruct (is_error_frame m)).
    rewrite split_plain_cons by (apply (signed_digits_plain 10); lia).
    rewrite split_plain by apply data_hex_plain.
    reflexivity.
Qed.

(** ** Rounding of timestamps and width of identifiers *)

(** X11.  The timestamp of a row, read as a number of microseconds (the
    digits before the point times 10^6 plus the six digits after it), is
    the timestamp of the message rounded to a nearest microsecond: it is
    off by at most half a microsecond. *)
Theorem timestamp_rounded_to_microsecond (m : Message) :
  ∃ whole frac units micros,
    row_of m !! "timestamp"
    = Some (Py.PyStr ((if Py.f_neg (timestamp m) then "-" else EmptyString)
                      +:+ whole +:+ "." +:+ frac))
    ∧ number_in 10 whole = Some units
    ∧ String.length frac = 6%nat
    ∧ value_from 10 0 frac = Some micros
    ∧ micros < 1000000
    ∧ let q := units * 1000000 + micros in
      2 * (q * micros_den (timestamp m)) ≤ 2 * micros_num (timestamp m) + micros_den (timestamp m)
      ∧ 2 * micros_num (timestamp m) ≤ 2 * (q * micros_den (timestamp m)) + micros_den (timestamp m).
Proof.
  destruct (format_6f_shape (timestamp m)) as (whole & frac & Heq & Hwhole & Hlen & Hfrac).
  exists whole, frac, (Py.scaled_round (timestamp m) / 1000000),
    (Py.scaled_round (timestamp m) mod 1000000).
  rewrite row_of_timestamp, Heq.
  split; [reflexivity|]. split; [exact Hwhole|]. split; [exact Hlen|].
  split; [exact Hfrac|]. split; [apply N.mod_lt; lia|]. cbv zeta.
  replace (Py.scaled_round (timestamp m) / 1000000 * 1000000
           + Py.scaled_round (timestamp m) mod 1000000)
    with (Py.scaled_round (timestamp m))
    by (rewrite (N.Div0.div_mod (Py.scaled_round (timestamp m)) 1000000) at 1; lia).
  destruct (timestamp m) as [neg mant [|p|p]];
    unfold micros_num, micros_den; cbn [Py.f_exp Py.f_mant].
  - unfold Py.scaled_round; cbn [Py.f_exp Py.f_mant]. lia.
  - unfold Py.scaled_round; cbn [Py.f_exp Py.f_mant]. lia.
  - pose proof (scaled_round_nearest neg mant p) as Hnear. cbv zeta in Hnear.
    revert Hnear.
    generalize (Py.scaled_round (Py.mkfloat neg mant (Z.neg p))).
    generalize (2 ^ N.pos p). intros den q [H1 H2]. nia.
Qed.

Section DigitCount.

Variable base : N.
Hypothesis base_ge : 2 ≤ base.

(** The number of digits produced is the least that can hold the
    number: no leading zero is written. *)
Lemma to_base_length (fuel : nat) :
  ∀ n acc, n < 2 ^ N.of_nat fuel →
    ∃ ds, Py.to_base (S fuel) base n acc = ds +:+ acc
          ∧ (1 ≤ String.length ds)%nat
          ∧ n < base ^ N.of_nat (String.length ds)
          ∧ (String.length ds = 1%nat
             ∨ base ^ N.of_nat (String.length ds - 1) ≤ n).
Proof.
  induction fuel as [|fuel IH]; intros n acc Hn; rewrite to_base_step.
  - assert (n = 0) as -> by (cbn in Hn; lia).
    rewrite N.Div0.div_0_l. cbn [N.eqb].
    eexists (String _ EmptyString). split; [reflexivity|]. cbn [String.length].
    split; [lia|]. split; [rewrite N.pow_1_r; lia | by left].
  - destruct (n / base =? 0) eqn:Hq.
    + apply N.eqb_eq, N.div_small_iff in Hq; [|lia].
      eexists (String _ EmptyString). split; [reflexivity|]. cbn [String.length].
      split; [lia|]. split; [rewrite N.pow_1_r; lia | by left].
    + apply N.eqb_neq in Hq.
      assert (Hlt : n / base < 2 ^ N.of_nat fuel).
      { apply N.Div0.div_lt_upper_bound.
        rewrite Nat2N.inj_succ, N.pow_succ_r' in Hn. nia. }
      destruct (IH (n / base) (String (Py.digit_char (n mod base)) acc) Hlt)
        as (ds & Heq & Hlen & Hup & Hlow).
      exists (ds +:+ String (Py.digit_char (n mod base)) EmptyString).
      split; [by rewrite Heq, append_assoc|].
      rewrite append_length. cbn [String.length].
      pose proof (N.Div0.div_mod n base) as Hdm.
      pose proof (N.mod_lt n base ltac:(lia)) as Hmod.
      split; [lia|].
      replace (String.length ds + 1 - 1)%nat with (String.length ds) by lia.
      replace (N.of_nat (String.length ds + 1)) with (N.succ (N.of_nat (String.length ds)))
        by lia.
      rewrite N.pow_succ_r'.
      split; [|right].
      * revert Hup Hdm Hmod. generalize (base ^ N.of_nat (String.length ds)).
        generalize (n mod base). generalize (n / base). intros. nia.
      * destruct Hlow as [Hone|Hlow].
        -- rewrite Hone. rewrite N.pow_1_r.
           revert Hq Hdm. generalize (n mod base). generalize (n / base). intros. nia.
        -- replace (N.of_nat (String.length ds))
             with (N.succ (N.of_nat (String.length ds - 1))) by lia.
           rewrite N.pow_succ_r'.
           revert Hlow Hdm. generalize (base ^ N.of_nat (String.length ds - 1)).
           generalize (n mod base). generalize (n / base). intros. nia.
Qed.

Lemma digits_length (n : N) :
  (1 ≤ String.length (Py.digits base n))%nat
  ∧ n < base ^ N.of_nat (String.length (Py.digits base n))
  ∧ (String.length (Py.digits base n) = 1%nat
     ∨ base ^ N.of_nat (String.length (Py.digits base n) - 1) ≤ n).
Proof.
  unfold Py.digits.
  destruct (to_base_length (N.size_nat n) n EmptyString (size_nat_bound n))
    as (ds & -> & H).
  by rewrite append_nil_r.
Qed.

End DigitCount.

(** X12.  A non-negative arbitration ID is written after [0x] with as
    many hexadecimal digits as it needs and no more: no leading zero and
    no fixed width.  An 11-bit ID takes at most three digits and a
    29-bit ID at most eight. *)
Theorem arbitration_id_has_no_padding (m : Message) :
  (0 ≤ arbitration_id m)%Z →
  ∃ hex,
    row_of m !! "arbitration_id" = Some (Py.PyStr ("0x" +:+ hex))
    ∧ (1 ≤ String.length hex)%nat
    ∧ Z.to_N (arbitration_id m) < 16 ^ N.of_nat (String.length hex)
    ∧ (String.length hex = 1%nat
       ∨ 16 ^ N.of_nat (String.length hex - 1) ≤ Z.to_N (arbitration_id m))
    ∧ ((arbitration_id m ≤ 2047)%Z → (String.length hex ≤ 3)%nat)
    ∧ ((arbitration_id m ≤ 536870911)%Z → (String.length hex ≤ 8)%nat).
Proof.
  intros Hpos. exists (Py.format_X (arbitration_id m)).
  split; [apply row_of_arbitration_id|].
  assert (Py.format_X (arbitration_id m)
          = Py.digits 16 (Z.to_N (arbitration_id m))) as ->.
  { unfold Py.format_X. destruct (arbitration_id m); [reflexivity..|lia]. }
  destruct (digits_length 16 ltac:(lia) (Z.to_N (arbitration_id m)))
    as (Hlen & Hup & Hlow).
  split; [exact Hlen|]. split; [exact Hup|]. split; [exact Hlow|].
  set (len := String.length (Py.digits 16 (Z.to_N (arbitration_id m)))) in *.
  assert (∀ k : nat, Z.to_N (arbitration_id m) < 16 ^ N.of_nat k → (1 ≤ k)%nat →
                     (len ≤ k)%nat) as Hbound.
  { intros k Hk Hk1. destruct Hlow as [->|Hlow]; [exact Hk1|].
    assert (16 ^ N.of_nat (len - 1) < 16 ^ N.of_nat k) as Hpow by lia.
    apply N.pow_lt_mono_r_iff in Hpow; lia. }
  split; intros Hmax; apply Hbound; lia.
Qed.

(** ** What [main] may change *)

Section MainFrame.

Variable BLFReader : string → exn + stream.
Variable repr : string → string.

(** X13.  [main] changes at most one path of the file system, and only
    after announcing it: if a path holds something else after [main]
    than before, then it is the output path, and the four announcement
    lines, with that path on the second, were printed before anything
    else. *)
Theorem main_changes_only_the_announced_output (a : args) (w : world) (p : string) :
  fs (snd (main BLFReader repr a w)) !! p ≠ fs w !! p →
  ∃ output_path rest,
    p = Pathlib.str output_path
    ∧ stdout (snd (main BLFReader repr a w))
      = (stdout w
         ++ [ "Converting BLF file: " +:+ Pathlib.str (Pathlib.Path (input_file a));
              "Output CSV file: " +:+ p;
              "Include error frames: " +:+ Py.str_bool (include_errors a);
              Py.repeat_str "-" 50 ]
         ++ rest)%list.
Proof.
  destruct (fs w !! Pathlib.str (Pathlib.Path (input_file a))) as [n|] eqn:Hfound.
  2: { rewrite (main_missing _ _ _ _ Hfound). cbn [snd fs]. done. }
  rewrite (main_found BLFReader repr a w) by (rewrite Hfound; eauto).
  assert (∀ output_path,
    let run := main_convert BLFReader repr (Pathlib.Path (input_file a))
                 output_path (include_errors a) w in
    fs (snd run) !! p ≠ fs w !! p →
    ∃ rest,
      p = Pathlib.str output_path
      ∧ stdout (snd run)
        = (stdout w
           ++ announcement (Pathlib.Path (input_file a)) output_path (include_errors a)
           ++ rest)%list) as Hrun.
  { intros output_path run. subst run. rewrite main_convert_run.
    set (wa := mkworld (fs w) _).
    destruct (convert_cases BLFReader repr
                (Pathlib.str (Pathlib.Path (input_file a)))
                (Pathlib.str output_path) (include_errors a) wa)
      as [(e & _ & ->)|(? & ? & reader & r & _ & _ & _ & ->)];
      cbn [snd fs stdout]; intros Hchanged.
    - done.
    - destruct (decide (Pathlib.str output_path = p)) as [<-|Hne].
      + eexists. split; [reflexivity|]. subst wa. cbn [stdout].
        by rewrite <- !app_assoc.
      + by rewrite lookup_insert_ne in Hchanged. }
  destruct (truthy (output_file a)).
  - intros Hchanged. destruct (Hrun _ Hchanged) as (rest & -> & Hout).
    by eexists _, rest.
  - destruct (Pathlib.with_suffix (Pathlib.Path (input_file a)) ".csv") as [q|].
    + intros Hchanged. destruct (Hrun _ Hchanged) as (rest & -> & Hout).
      by eexists _, rest.
    + cbn [snd]. done.
Qed.

End MainFrame.

(** X14.  The seventh value of a line, read as a decimal number with an
    optional sign, is the DLC of the message. *)
Theorem dlc_column_reads_back (m : Message) :
  ∃ text,
    row_texts m !! 6%nat = Some text
    ∧ signed_in 10 text = Some (dlc m).
Proof.
  exists (Py.str_int (dlc m)). split; [|apply str_int_value].
  unfold row_texts. by rewrite row_values.
Qed.

(** ** Instances of the further properties *)

(** An output file that may not be written keeps its content. *)
Lemma failed_opening_changes_nothing_witness :
  ∃ e,
    convert_blf_to_csv (Sample.reader_of Stop) Sample.repr "in.blf" "out.csv" false
      MoreSamples.world_locked_output
    = (Returned false,
       mkworld (fs MoreSamples.world_locked_output)
         (stdout MoreSamples.world_locked_output ++ [report "in.blf" e]))
    ∧ report "in.blf" e = "Error: Permission denied accessing files."
    ∧ fs MoreSamples.world_locked_output !! "out.csv" = Some (File true false "old").
Proof.
  exists (os_error Sample.repr PermissionError 13 "Permission denied" "out.csv").
  split; [|split; reflexivity].
  apply (failed_opening_changes_nothing (Sample.reader_of Stop) Sample.repr
           "in.blf" "out.csv" false MoreSamples.world_locked_output).
  right; right. exists true, "LOGG", Stop. repeat split; reflexivity.
Defined.

Lemma only_output_path_changes_witness :
  fs (snd (convert_blf_to_csv (Sample.reader_of (Yield Sample.can_0x123 Stop))
             Sample.repr "in.blf" "out.csv" false Sample.world0)) !! "in.blf"
  = fs Sample.world0 !! "in.blf".
Proof.
  apply (only_output_path_changes (Sample.reader_of (Yield Sample.can_0x123 Stop))
           Sample.repr "in.blf" "out.csv" false Sample.world0 "in.blf").
  discriminate.
Defined.

Lemma missing_output_directory_blamed_on_input_witness :
  convert_blf_to_csv (Sample.reader_of Stop) Sample.repr "in.blf" "out/in.csv" false
    Sample.world0
  = (Returned false,
     mkworld (fs Sample.world0)
       (stdout Sample.world0 ++ ["Error: BLF file 'in.blf' not found."])).
Proof.
  apply (missing_output_directory_blamed_on_input (Sample.reader_of Stop) Sample.repr
           "in.blf" "out/in.csv" false Sample.world0 true "LOGG" Stop);
    (reflexivity || discriminate).
Defined.

Lemma rerun_rewrites_the_output_witness :
  ∃ w'',
    convert_blf_to_csv (Sample.reader_of (Yield Sample.can_0x123 Stop)) Sample.repr
      "in.blf" "out.csv" false MoreRuns.world_converted
    = (Returned true, w'')
    ∧ fs w'' = fs MoreRuns.world_converted.
Proof.
  apply (rerun_rewrites_the_output (Sample.reader_of (Yield Sample.can_0x123 Stop))
           Sample.repr "in.blf" "out.csv" false Sample.world0 MoreRuns.world_converted).
  - discriminate.
  - vm_compute. reflexivity.
Defined.


Lemma main_raises_without_name_witness :
  (∃ text,
      main (Sample.reader_of Stop) Sample.repr (mkargs "/" None false)
        MoreSamples.world_root
      = (Raised (mkexn (OtherException "ValueError") text), MoreSamples.world_root))
  ∧ exit_status (Sample.reader_of Stop) Sample.repr (mkargs "/" None false)
      MoreSamples.world_root = 1%Z.
Proof.
  apply (main_raises_without_name (Sample.reader_of Stop) Sample.repr
           (mkargs "/" None false) MoreSamples.world_root).
  - exists (Dir true). reflexivity.
  - reflexivity.
  - reflexivity.
Defined.

Lemma csv_named_input_is_its_own_output_witness :
  main (Sample.reader_of Stop) Sample.repr (mkargs "log.csv" None false)
    MoreSamples.world_csv_input
  = main_convert (Sample.reader_of Stop) Sample.repr
      (Pathlib.Path "log.csv") (Pathlib.Path "log.csv") false
      MoreSamples.world_csv_input
  ∧ fs (snd (main (Sample.reader_of Stop) Sample.repr (mkargs "log.csv" None false)
               MoreSamples.world_csv_input)) !! "log.csv"
    = Some (File true true header_line).
Proof.
  split.
  - apply (csv_named_input_is_its_own_output (Sample.reader_of Stop) Sample.repr
             (mkargs "log.csv" None false) MoreSamples.world_csv_input "log").
    + exists (File true true "LOGG"). reflexivity.
    + reflexivity.
    + reflexivity.
    + discriminate.
  - vm_compute. reflexivity.
Defined.

Lemma progress_every_10000_rows_witness :
  ∃ result w' lines,
    convert_blf_to_csv (Sample.reader_of MoreSamples.mixed_log) Sample.repr
      "in.blf" "out.csv" false Sample.world0
    = (Returned result, w')
    ∧ stdout w'
      = (stdout Sample.world0 ++ lines
         ++ summary "out.csv" 2 1)%list
    ∧ N.of_nat (length lines) = 2 / 10000
    ∧ ∀ line,
        In line lines
        ↔ ∃ c, 0 < c ∧ c ≤ 2 ∧ c mod 10000 = 0
               ∧ line = "Processed " +:+ Py.str_int (Z.of_N c) +:+ " messages...".
Proof.
  exact (progress_every_10000_rows (Sample.reader_of MoreSamples.mixed_log) Sample.repr
           "in.blf" "out.csv" false Sample.world0 Runs.world1 true "LOGG"
           MoreSamples.mixed_log eq_refl eq_refl eq_refl).
Defined.

Lemma counters_account_for_every_message_witness :
  ∃ message_count error_count w',
    process_messages "out.csv" false MoreSamples.mixed_log 0 0 Runs.world1
    = (Returned (message_count, error_count), w')
    ∧ message_count + error_count = 3
    ∧ message_count = 2
    ∧ (false = true → error_count = 0).
Proof.
  exact (counters_account_for_every_message "out.csv" false MoreSamples.mixed_log
           Runs.world1 true true EmptyString eq_refl eq_refl).
Defined.

Lemma row_splits_into_its_values_witness :
  ∃ body,
    Csv.render_row fieldnames (row_of Sample.can_0x123) = body +:+ Csv.lineterminator
    ∧ split_commas body = row_texts Sample.can_0x123
    ∧ row_texts Sample.can_0x123
      = [ "1.500000"; "0"; "0x123"; "False"; "False"; "False"; "4"; "01 02 03 04" ].
Proof.
  exact (row_splits_into_its_values Sample.can_0x123 eq_refl).
Defined.

Lemma arbitration_id_has_no_padding_witness :
  ∃ hex,
    row_of Sample.can_0x123 !! "arbitration_id" = Some (Py.PyStr ("0x" +:+ hex))
    ∧ (1 ≤ String.length hex)%nat
    ∧ 291 < 16 ^ N.of_nat (String.length hex)
    ∧ (String.length hex = 1%nat ∨ 16 ^ N.of_nat (String.length hex - 1) ≤ 291)
    ∧ ((291 ≤ 2047)%Z → (String.length hex ≤ 3)%nat)
    ∧ ((291 ≤ 536870911)%Z → (String.length hex ≤ 8)%nat).
Proof.
  apply (arbitration_id_has_no_padding Sample.can_0x123). discriminate.
Defined.

(** A channel given as a string with a comma is written in quotes. *)
Example quoted_channel :
  Csv.render_row fieldnames
    (row_of (mkMessage (Py.mkfloat false 3 (-1)) (Some (Py.PyStr "can0,a")) 291
               false false false 0 []))
  = "1.500000," +:+ String Csv.quotechar ("can0,a" +:+ String Csv.quotechar
      (",0x123,False,False,False,0," +:+ Csv.lineterminator)).
Proof. vm_compute. reflexivity. Qed.

Lemma main_changes_only_the_announced_output_witness :
  ∃ output_path rest,
    "out.csv" = Pathlib.str output_path
    ∧ stdout (snd (main (Sample.reader_of (Yield Sample.can_0x123 Stop)) Sample.repr
                     (mkargs "in.blf" (Some "out.csv") false) Sample.world0))
      = (stdout Sample.world0
         ++ [ "Converting BLF file: in.blf";
              "Output CSV file: out.csv";
              "Include error frames: False";
              Py.repeat_str "-" 50 ]
         ++ rest)%list.
Proof.
  apply (main_changes_only_the_announced_output
           (Sample.reader_of (Yield Sample.can_0x123 Stop)) Sample.repr
           (mkargs "in.blf" (Some "out.csv") false) Sample.world0 "out.csv").
  vm_compute. discriminate.
Defined.

(** The row that brings the count to 10000 is followed by a progress
    line. *)
Example progress_at_10000 :
  stdout (snd (process_messages "out.csv" false (Yield Sample.can_0x123 Stop)
                 9999 0 Runs.world1))
  = ["Processed 10000 messages..."].
Proof. vm_compute. reflexivity. Qed.
